(** * StepByStep: the training-loop wrapper of [z_models/linear_regression_v0.py]

    The class [StepByStep] binds a model, a loss function and an optimizer of
    the tensor library and drives mini-batch training, validation,
    checkpointing and TensorBoard logging.  Everything numeric is done by the
    library; the class only sequences library calls and keeps a few
    attributes.  The embedding below therefore has three layers:

    - [Torch]: the interface of the library objects the class is handed
      (what [model(x)], [loss.backward()], [optimizer.step()], [np.mean] ...
      compute, and which calls raise);
    - a state / exception / trace monad [M] in which every library call is a
      primitive that records an [event];
    - the methods of the class, written call by call as in the source. *)

From stdpp Require Import gmap strings list.
From Stdlib Require Import ZArith QArith.

Open Scope Z_scope.

(** ** Exceptions and results *)

(** [RuntimeError] stands for Python's [RuntimeError] and its subclasses, the
    only exceptions an [except RuntimeError] clause handles; every other
    exception class is an [Exception] with its name. *)
Inductive exn : Type :=
| RuntimeError
| Exception (name : string).

Inductive result (A : Type) : Type :=
| Ok (a : A)
| Raise (e : exn).
Arguments Ok {A} a.
Arguments Raise {A} e.

(** ** The library interface *)

(** The model, loss function and optimizer given to [StepByStep.__init__] are
    library objects.  [Torch] collects what the embedding needs to know about
    them.  The optimizer is built over the model's parameters (as in [main]),
    so [optimizer.step()] updates the very parameters [model(x)] reads. *)
Class Torch : Type := {
  tensor : Type;      (* torch.Tensor, with its autograd graph *)
  ndarray : Type;     (* numpy arrays taken and returned by predict *)
  float : Type;       (* Python floats and np.float64 *)
  params : Type;      (* the contents of model.state_dict() *)
  grads : Type;       (* the .grad fields of the parameters *)
  ostate : Type;      (* the contents of optimizer.state_dict() *)
  generator : Type;   (* state of torch's default random generator *)
  (* torch.cuda.is_available() *)
  cuda_is_available : bool;
  (* nn.Module.to(device): None when the move succeeds *)
  module_to : string -> option exn;
  (* Tensor.to(device) *)
  tensor_to : string -> tensor -> result tensor;
  (* model(x), from the parameters, the training flag and the grad mode *)
  module_call : params -> bool -> bool -> tensor -> result tensor;
  (* loss_fn(yhat, y) *)
  loss_call : tensor -> tensor -> result tensor;
  (* the gradients loss.backward() derives for the parameters *)
  tensor_backward : tensor -> result grads;
  (* accumulation of a new gradient into the .grad fields *)
  grad_accumulate : option grads -> grads -> grads;
  (* optimizer.step(): new optimizer state and parameters *)
  optimizer_update : ostate -> params -> option grads -> result (ostate * params);
  (* Tensor.item() *)
  tensor_item : tensor -> float;
  (* np.mean over a list of floats *)
  np_mean : list float -> float;
  (* load_state_dict accepts a state dict of the same structure only *)
  module_accepts : params -> params -> bool;
  optimizer_accepts : ostate -> ostate -> bool;
  (* what a rejected Module.load_state_dict leaves behind: the entries that
     match are copied into the parameters before the error is raised *)
  module_partial_load : params -> params -> params;
  (* torch.manual_seed and np.random.seed *)
  manual_seed : Z -> result generator;
  np_random_seed : Z -> option exn;
  (* torch.save(obj, filename): None when the file can be written *)
  file_writable : string -> option exn;
  (* SummaryWriter(log_dir), add_scalars, add_graph *)
  writer_open : string -> option exn;
  add_scalars_check : gmap string (option float) -> option exn;
  add_graph_check : tensor -> option exn;
  (* torch.as_tensor(x).float() and Tensor.detach().cpu().numpy() *)
  as_float_tensor : ndarray -> result tensor;
  to_numpy : tensor -> ndarray
}.

Section StepByStep.
Context {T : Torch}.

(** A [DataLoader]: [len(loader)] and the batches one iteration yields, in
    order; a shuffling loader draws from the random generator. *)
Record DataLoader : Type := {
  dl_len : nat;
  dl_iter : generator -> list (tensor * tensor) * generator
}.

(** The dictionary [save_checkpoint] hands to [torch.save]. *)
Record checkpoint : Type := {
  ck_epoch : Z;
  ck_model_state_dict : params;
  ck_optimizer_state_dict : ostate;
  ck_loss : list (option float);
  ck_val_loss : list (option float)
}.

(** ** State *)

Record State : Type := mkState {
  (* attributes of self *)
  device : string;
  train_loader : option DataLoader;
  val_loader : option DataLoader;
  writer : option string;        (* the SummaryWriter, named by its log_dir *)
  losses : list (option float);
  val_losses : list (option float);
  total_epochs : Z;
  (* self.model and self.optimizer *)
  model_params : params;
  model_grads : option grads;
  model_training : bool;
  model_device : string;
  optimizer_state : ostate;
  (* process-wide library state *)
  grad_enabled : bool;
  rng : generator;
  files : gmap string checkpoint
}.

Definition set_device (v : string) (s : State) : State :=
  mkState v (train_loader s) (val_loader s) (writer s) (losses s) (val_losses s)
    (total_epochs s) (model_params s) (model_grads s) (model_training s)
    (model_device s) (optimizer_state s) (grad_enabled s) (rng s) (files s).

Definition set_train_loader (v : option DataLoader) (s : State) : State :=
  mkState (device s) v (val_loader s) (writer s) (losses s) (val_losses s)
    (total_epochs s) (model_params s) (model_grads s) (model_training s)
    (model_device s) (optimizer_state s) (grad_enabled s) (rng s) (files s).

Definition set_val_loader (v : option DataLoader) (s : State) : State :=
  mkState (device s) (train_loader s) v (writer s) (losses s) (val_losses s)
    (total_epochs s) (model_params s) (model_grads s) (model_training s)
    (model_device s) (optimizer_state s) (grad_enabled s) (rng s) (files s).

Definition set_writer (v : option string) (s : State) : State :=
  mkState (device s) (train_loader s) (val_loader s) v (losses s) (val_losses s)
    (total_epochs s) (model_params s) (model_grads s) (model_training s)
    (model_device s) (optimizer_state s) (grad_enabled s) (rng s) (files s).

Definition set_losses (v : list (option float)) (s : State) : State :=
  mkState (device s) (train_loader s) (val_loader s) (writer s) v (val_losses s)
    (total_epochs s) (model_params s) (model_grads s) (model_training s)
    (model_device s) (optimizer_state s) (grad_enabled s) (rng s) (files s).

Definition set_val_losses (v : list (option float)) (s : State) : State :=
  mkState (device s) (train_loader s) (val_loader s) (writer s) (losses s) v
    (total_epochs s) (model_params s) (model_grads s) (model_training s)
    (model_device s) (optimizer_state s) (grad_enabled s) (rng s) (files s).

Definition set_total_epochs (v : Z) (s : State) : State :=
  mkState (device s) (train_loader s) (val_loader s) (writer s) (losses s)
    (val_losses s) v (model_params s) (model_grads s) (model_training s)
    (model_device s) (optimizer_state s) (grad_enabled s) (rng s) (files s).

Definition set_model_params (v : params) (s : State) : State :=
  mkState (device s) (train_loader s) (val_loader s) (writer s) (losses s)
    (val_losses s) (total_epochs s) v (model_grads s) (model_training s)
    (model_device s) (optimizer_state s) (grad_enabled s) (rng s) (files s).

Definition set_model_grads (v : option grads) (s : State) : State :=
  mkState (device s) (train_loader s) (val_loader s) (writer s) (losses s)
    (val_losses s) (total_epochs s) (model_params s) v (model_training s)
    (model_device s) (optimizer_state s) (grad_enabled s) (rng s) (files s).

Definition set_model_training (v : bool) (s : State) : State :=
  mkState (device s) (train_loader s) (val_loader s) (writer s) (losses s)
    (val_losses s) (total_epochs s) (model_params s) (model_grads s) v
    (model_device s) (optimizer_state s) (grad_enabled s) (rng s) (files s).

Definition set_model_device (v : string) (s : State) : State :=
  mkState (device s) (train_loader s) (val_loader s) (writer s) (losses s)
    (val_losses s) (total_epochs s) (model_params s) (model_grads s)
    (model_training s) v (optimizer_state s) (grad_enabled s) (rng s) (files s).

Definition set_optimizer_state (v : ostate) (s : State) : State :=
  mkState (device s) (train_loader s) (val_loader s) (writer s) (losses s)
    (val_losses s) (total_epochs s) (model_params s) (model_grads s)
    (model_training s) (model_device s) v (grad_enabled s) (rng s) (files s).

Definition set_grad_enabled (v : bool) (s : State) : State :=
  mkState (device s) (train_loader s) (val_loader s) (writer s) (losses s)
    (val_losses s) (total_epochs s) (model_params s) (model_grads s)
    (model_training s) (model_device s) (optimizer_state s) v (rng s) (files s).

Definition set_rng (v : generator) (s : State) : State :=
  mkState (device s) (train_loader s) (val_loader s) (writer s) (losses s)
    (val_losses s) (total_epochs s) (model_params s) (model_grads s)
    (model_training s) (model_device s) (optimizer_state s) (grad_enabled s) v
    (files s).

Definition set_files (v : gmap string checkpoint) (s : State) : State :=
  mkState (device s) (train_loader s) (val_loader s) (writer s) (losses s)
    (val_losses s) (total_epochs s) (model_params s) (model_grads s)
    (model_training s) (model_device s) (optimizer_state s) (grad_enabled s)
    (rng s) v.

(** ** Events: the calls the class makes into the library *)

Inductive event : Type :=
| EvModuleTo (d : string)
| EvModuleTrain
| EvModuleEval
| EvModuleCall (x : tensor)
| EvLossCall (yhat y : tensor)
| EvBackward (loss : tensor)
| EvOptimizerStep
| EvOptimizerZeroGrad
| EvItem (loss : tensor)
| EvTensorTo (d : string) (x : tensor)
| EvNoGradEnter
| EvNoGradExit
| EvCudnnFlags (deterministic benchmark : bool)
| EvManualSeed (seed : Z)
| EvNpRandomSeed (seed : Z)
| EvSummaryWriter (log_dir : string)
| EvAddScalars (log_dir main_tag : string)
    (tag_scalar_dict : gmap string (option float)) (global_step : Z)
| EvWriterClose (log_dir : string)
| EvAddGraph (log_dir : string) (x : tensor)
| EvStateDict
| EvOptimizerStateDict
| EvLoadStateDict (sd : params)
| EvOptimizerLoadStateDict (sd : ostate)
| EvTorchSave (filename : string) (c : checkpoint)
| EvTorchLoad (filename : string)
| EvAsTensor (x : ndarray)
| EvToNumpy (x : tensor)
| EvPlot (label : string) (ys : list (option float))
| EvPrint (msg : string)
| EvRaise (e : exn).

(** ** The monad: state, exceptions and the trace of library calls *)

Record out (A : Type) : Type := Out {
  res : result A;
  post : State;
  evs : list event
}.
Arguments Out {A} res post evs.
Arguments res {A} o.
Arguments post {A} o.
Arguments evs {A} o.

Definition M (A : Type) : Type := State -> out A.

Definition ret {A} (a : A) : M A := fun s => Out (Ok a) s [].

Definition bind {A B} (m : M A) (k : A -> M B) : M B := fun s =>
  match m s with
  | Out (Ok a) s1 t1 =>
      match k a s1 with
      | Out r s2 t2 => Out r s2 (t1 ++ t2)
      end
  | Out (Raise e) s1 t1 => Out (Raise e) s1 t1
  end.

Notation "x <~ m ;; k" := (bind m (fun x => k))
  (at level 100, m at next level, right associativity).
Notation "m ;; k" := (bind m (fun _ => k))
  (at level 100, right associativity).

Definition emit (ev : event) : M unit := fun s => Out (Ok ()) s [ev].
Definition raise {A} (e : exn) : M A := fun s => Out (Raise e) s [EvRaise e].
Definition gets {A} (f : State -> A) : M A := fun s => Out (Ok (f s)) s [].
Definition modify (f : State -> State) : M unit := fun s => Out (Ok ()) (f s) [].

Definition lift {A} (r : result A) : M A :=
  match r with Ok a => ret a | Raise e => raise e end.

Definition check (o : option exn) : M unit :=
  match o with None => ret () | Some e => raise e end.

(** [try: body except RuntimeError: handler] *)
Definition try_except_RuntimeError (body handler : M unit) : M unit := fun s =>
  match body s with
  | Out (Raise RuntimeError) s1 t1 =>
      match handler s1 with
      | Out r s2 t2 => Out r s2 (t1 ++ t2)
      end
  | o => o
  end.

(** [with torch.no_grad(): body]: the grad mode is switched off for the body
    and put back on exit, whether the body returns or raises. *)
Definition with_no_grad {A} (body : M A) : M A := fun s =>
  let prev := grad_enabled s in
  match body (set_grad_enabled false s) with
  | Out r s1 t1 =>
      Out r (set_grad_enabled prev s1) (EvNoGradEnter :: t1 ++ [EvNoGradExit])
  end.

(** [for x in xs: body] *)
Fixpoint for_each {A} (xs : list A) (body : A -> M unit) : M unit :=
  match xs with
  | [] => ret ()
  | x :: xs' => body x ;; for_each xs' body
  end.

(** [for x in xs: acc = body(x, acc)], for a loop that updates a local. *)
Fixpoint for_fold {A B} (xs : list A) (acc : B) (body : A -> B -> M B) : M B :=
  match xs with
  | [] => ret acc
  | x :: xs' => acc' <~ body x acc ;; for_fold xs' acc' body
  end.

(** [range(n)] *)
Definition range (n : Z) : list Z := map Z.of_nat (seq 0 (Z.to_nat n)).

(** ** Library calls *)

Definition model_to (d : string) : M unit :=
  emit (EvModuleTo d) ;; check (module_to d) ;; modify (set_model_device d).

Definition model_train : M unit :=
  emit EvModuleTrain ;; modify (set_model_training true).

Definition model_eval : M unit :=
  emit EvModuleEval ;; modify (set_model_training false).

Definition model_call (x : tensor) : M tensor :=
  emit (EvModuleCall x) ;;
  p <~ gets model_params ;;
  t <~ gets model_training ;;
  g <~ gets grad_enabled ;;
  lift (module_call p t g x).

Definition loss_fn (yhat y : tensor) : M tensor :=
  emit (EvLossCall yhat y) ;; lift (loss_call yhat y).

Definition backward (loss : tensor) : M unit :=
  emit (EvBackward loss) ;;
  g <~ lift (tensor_backward loss) ;;
  modify (fun s => set_model_grads (Some (grad_accumulate (model_grads s) g)) s).

Definition optimizer_step : M unit :=
  emit EvOptimizerStep ;;
  o <~ gets optimizer_state ;;
  p <~ gets model_params ;;
  g <~ gets model_grads ;;
  op <~ lift (optimizer_update o p g) ;;
  modify (fun s => set_optimizer_state (fst op) (set_model_params (snd op) s)).

Definition optimizer_zero_grad : M unit :=
  emit EvOptimizerZeroGrad ;; modify (set_model_grads None).

Definition item (loss : tensor) : M float :=
  emit (EvItem loss) ;; ret (tensor_item loss).

Definition tensor_to_device (x : tensor) (d : string) : M tensor :=
  emit (EvTensorTo d x) ;; lift (tensor_to d x).

Definition state_dict : M params :=
  emit EvStateDict ;; gets model_params.

Definition optimizer_state_dict : M ostate :=
  emit EvOptimizerStateDict ;; gets optimizer_state.

(** [Module.load_state_dict] copies entry by entry and raises at the end
    when something did not fit; [Optimizer.load_state_dict] checks the
    parameter groups before it changes anything. *)
Definition load_state_dict (sd : params) : M unit :=
  emit (EvLoadStateDict sd) ;;
  p <~ gets model_params ;;
  if module_accepts p sd then modify (set_model_params sd)
  else (modify (set_model_params (module_partial_load p sd)) ;;
        raise RuntimeError).

Definition optimizer_load_state_dict (sd : ostate) : M unit :=
  emit (EvOptimizerLoadStateDict sd) ;;
  o <~ gets optimizer_state ;;
  (if optimizer_accepts o sd then ret () else raise (Exception "ValueError")) ;;
  modify (set_optimizer_state sd).

Definition torch_save (c : checkpoint) (filename : string) : M unit :=
  emit (EvTorchSave filename c) ;;
  check (file_writable filename) ;;
  modify (fun s => set_files (<[filename := c]> (files s)) s).

Definition torch_load (filename : string) : M checkpoint :=
  emit (EvTorchLoad filename) ;;
  fs <~ gets files ;;
  match fs !! filename with
  | Some c => ret c
  | None => raise (Exception "FileNotFoundError")
  end.

Definition iterate (dl : DataLoader) : M (list (tensor * tensor)) :=
  g <~ gets rng ;;
  modify (set_rng (snd (dl_iter dl g))) ;;
  ret (fst (dl_iter dl g)).

Definition SummaryWriter (log_dir : string) : M string :=
  emit (EvSummaryWriter log_dir) ;; check (writer_open log_dir) ;; ret log_dir.

Definition add_scalars (w main_tag : string)
    (tag_scalar_dict : gmap string (option float)) (global_step : Z) : M unit :=
  emit (EvAddScalars w main_tag tag_scalar_dict global_step) ;;
  check (add_scalars_check tag_scalar_dict).

Definition writer_close (w : string) : M unit := emit (EvWriterClose w).

Definition writer_add_graph (w : string) (x : tensor) : M unit :=
  emit (EvAddGraph w x) ;; check (add_graph_check x).

Definition print (msg : string) : M unit := emit (EvPrint msg).

(** ** The class *)

Definition default_device : string :=
  if cuda_is_available then "cuda" else "cpu".

(** [StepByStep.__init__]; the model and the optimizer are the ones of the
    state it runs in. *)
Definition __init__ : M unit :=
  modify (set_device default_device) ;;
  d <~ gets device ;;
  model_to d ;;
  modify (set_train_loader None) ;;
  modify (set_val_loader None) ;;
  modify (set_writer None) ;;
  modify (set_losses []) ;;
  modify (set_val_losses []) ;;
  modify (set_total_epochs 0).

Definition to (d : string) : M unit :=
  try_except_RuntimeError
    (modify (set_device d) ;;
     d' <~ gets device ;;
     model_to d')
    (modify (set_device default_device) ;;
     d' <~ gets device ;;
     print ("Couldn't send it to " +:+ d +:+ ", sending it to " +:+ d' +:+ " instead.") ;;
     d' <~ gets device ;;
     model_to d').

Definition set_loaders (tl : DataLoader) (vl : option DataLoader) : M unit :=
  modify (set_train_loader (Some tl)) ;;
  modify (set_val_loader vl).

Definition str_of (o : option string) : string :=
  match o with Some v => v | None => "None" end.

Definition set_tensorboard (name folder : string) (suffix : option string) : M unit :=
  w <~ SummaryWriter (folder +:+ "/" +:+ name +:+ "_" +:+ str_of suffix) ;;
  modify (set_writer (Some w)).

Definition perform_train_step_fn (x y : tensor) : M float :=
  model_train ;;
  yhat <~ model_call x ;;
  loss <~ loss_fn yhat y ;;
  backward loss ;;
  optimizer_step ;;
  optimizer_zero_grad ;;
  item loss.

Definition perform_val_step_fn (x y : tensor) : M float :=
  model_eval ;;
  yhat <~ model_call x ;;
  loss <~ loss_fn yhat y ;;
  item loss.

Definition _mini_batch (validation : bool) : M (option float) :=
  data_loader <~ gets (if validation then val_loader else train_loader) ;;
  let step_fn := if validation then perform_val_step_fn else perform_train_step_fn in
  match data_loader with
  | None => ret None
  | Some dl =>
      batches <~ iterate dl ;;
      mini_batch_losses <~
        for_fold batches [] (fun b mini_batch_losses =>
          d <~ gets device ;;
          x_batch <~ tensor_to_device (fst b) d ;;
          d <~ gets device ;;
          y_batch <~ tensor_to_device (snd b) d ;;
          mini_batch_loss <~ step_fn x_batch y_batch ;;
          ret (mini_batch_losses ++ [mini_batch_loss])) ;;
      ret (Some (np_mean mini_batch_losses))
  end.

Definition set_seed (seed : Z) : M unit :=
  emit (EvCudnnFlags true false) ;;
  emit (EvManualSeed seed) ;;
  g <~ lift (manual_seed seed) ;;
  modify (set_rng g) ;;
  emit (EvNpRandomSeed seed) ;;
  check (np_random_seed seed).

(** The body of the epoch loop of [train]. *)
Definition train_epoch (epoch : Z) : M unit :=
  modify (fun s => set_total_epochs (total_epochs s + 1) s) ;;
  loss <~ _mini_batch false ;;
  modify (fun s => set_losses (losses s ++ [loss]) s) ;;
  val_loss <~ with_no_grad (
    val_loss <~ _mini_batch true ;;
    modify (fun s => set_val_losses (val_losses s ++ [val_loss]) s) ;;
    ret val_loss) ;;
  w <~ gets writer ;;
  match w with
  | Some w =>
      let scalars : gmap string (option float) := {[ "training" := loss ]} in
      let scalars :=
        match val_loss with
        | Some _ => <[ "validation" := val_loss ]> scalars
        | None => scalars
        end in
      add_scalars w "loss" scalars epoch
  | None => ret ()
  end.

Definition train (n_epochs seed : Z) : M unit :=
  set_seed seed ;;
  for_each (range n_epochs) train_epoch ;;
  w <~ gets writer ;;
  match w with
  | Some w => writer_close w
  | None => ret ()
  end.

Definition save_checkpoint (filename : string) : M unit :=
  epoch <~ gets total_epochs ;;
  msd <~ state_dict ;;
  osd <~ optimizer_state_dict ;;
  loss <~ gets losses ;;
  val_loss <~ gets val_losses ;;
  torch_save {| ck_epoch := epoch; ck_model_state_dict := msd;
                ck_optimizer_state_dict := osd; ck_loss := loss;
                ck_val_loss := val_loss |} filename.

Definition load_checkpoint (filename : string) : M unit :=
  c <~ torch_load filename ;;
  load_state_dict (ck_model_state_dict c) ;;
  optimizer_load_state_dict (ck_optimizer_state_dict c) ;;
  modify (set_total_epochs (ck_epoch c)) ;;
  modify (set_losses (ck_loss c)) ;;
  modify (set_val_losses (ck_val_loss c)) ;;
  model_train.

Definition predict (x : ndarray) : M ndarray :=
  model_eval ;;
  emit (EvAsTensor x) ;;
  x_tensor <~ lift (as_float_tensor x) ;;
  d <~ gets device ;;
  x_dev <~ tensor_to_device x_tensor d ;;
  y_hat_tensor <~ model_call x_dev ;;
  model_train ;;
  emit (EvToNumpy y_hat_tensor) ;;
  ret (to_numpy y_hat_tensor).

Definition plot_losses : M unit :=
  ls <~ gets losses ;;
  emit (EvPlot "Training Loss" ls) ;;
  vs <~ gets val_losses ;;
  emit (EvPlot "Validation Loss" vs).

Definition add_graph : M unit :=
  tl <~ gets train_loader ;;
  w <~ gets writer ;;
  match tl, w with
  | Some dl, Some w =>
      if (0 <? dl_len dl)%nat then
        batches <~ iterate dl ;;
        match batches with
        | b :: _ =>
            d <~ gets device ;;
            x <~ tensor_to_device (fst b) d ;;
            writer_add_graph w x
        | [] => raise (Exception "StopIteration")
        end
      else ret ()
  | _, _ => ret ()
  end.

(** ** The passes and epochs, as the specification words them *)

(** What one pass does with one batch: both tensors are sent to
    [self.device] and handed to the step function. *)
Definition batch_step (step_fn : tensor -> tensor -> M float)
    (b : tensor * tensor) : M float :=
  d <~ gets device ;;
  x_batch <~ tensor_to_device (fst b) d ;;
  d <~ gets device ;;
  y_batch <~ tensor_to_device (snd b) d ;;
  step_fn x_batch y_batch.

(** The per-mini-batch losses the step function returns over the batches of
    a loader, in loader order; each step starts in the state the previous
    one left. *)
Fixpoint pass_losses (step_fn : tensor -> tensor -> M float)
    (batches : list (tensor * tensor)) (s : State) : list float :=
  match batches with
  | [] => []
  | b :: batches' =>
      match batch_step step_fn b s with
      | Out (Ok l) s' _ => l :: pass_losses step_fn batches' s'
      | Out (Raise _) _ _ => []
      end
  end.

(** What a training pass over [dl] that starts in [s] has to record:
    [np.mean] of its step losses. *)
Definition pass_mean (dl : DataLoader) (s : State) : option float :=
  Some (np_mean
          (pass_losses perform_train_step_fn (fst (dl_iter dl (rng s)))
             (set_rng (snd (dl_iter dl (rng s))) s))).

(** The states in which the training passes of a run of epochs start: each
    epoch counts itself and then trains on what the epochs before left. *)
Fixpoint pass_starts (epochs : list Z) (s : State) : list State :=
  match epochs with
  | [] => []
  | epoch :: epochs' =>
      set_total_epochs (total_epochs s + 1) s
        :: pass_starts epochs' (post (train_epoch epoch s))
  end.

(** The scalars of one epoch: the training loss always, the validation loss
    when there is one. *)
Definition epoch_scalars (loss val_loss : option float) : gmap string (option float) :=
  match val_loss with
  | Some _ => <[ "validation" := val_loss ]> {[ "training" := loss ]}
  | None => {[ "training" := loss ]}
  end.

(** What an epoch logs: nothing without a writer, its scalars with one. *)
Definition epoch_log (w : option string) (loss val_loss : option float)
    (epoch : Z) : list event :=
  match w with
  | Some w => [EvAddScalars w "loss" (epoch_scalars loss val_loss) epoch]
  | None => []
  end.

(** [runs_epochs epochs s ls vs t s']: from [s], one epoch per index in
    [epochs] runs to completion and ends in [s'].  Each epoch counts itself in
    [total_epochs], then makes one full training pass, whose loss is appended
    to [losses], then one full validation pass with the grad mode off, whose
    value is appended to [val_losses], then logs.  [ls] and [vs] are the
    values appended and [t] the library calls made. *)
Inductive runs_epochs :
    list Z -> State -> list (option float) -> list (option float) ->
    list event -> State -> Prop :=
| runs_done s : runs_epochs [] s [] [] [] s
| runs_epoch epoch epochs s l s1 t1 v s2 t2 ls vs t s' :
    _mini_batch false (set_total_epochs (total_epochs s + 1) s)
      = Out (Ok l) s1 t1 ->
    _mini_batch true (set_grad_enabled false (set_losses (losses s1 ++ [l]) s1))
      = Out (Ok v) s2 t2 ->
    runs_epochs epochs
      (set_grad_enabled (grad_enabled s1)
         (set_val_losses (val_losses s2 ++ [v]) s2)) ls vs t s' ->
    runs_epochs (epoch :: epochs) s (l :: ls) (v :: vs)
      (t1 ++ EvNoGradEnter :: t2 ++ EvNoGradExit
          :: epoch_log (writer s2) l v epoch ++ t) s'.

(** What a run of epochs logs. *)
Fixpoint epochs_log (w : option string) (epochs : list Z)
    (ls vs : list (option float)) : list event :=
  match epochs, ls, vs with
  | epoch :: epochs', l :: ls', v :: vs' =>
      epoch_log w l v epoch ++ epochs_log w epochs' ls' vs'
  | _, _, _ => []
  end.

(** The calls made on the SummaryWriter. *)
Definition is_writer_event (ev : event) : bool :=
  match ev with
  | EvSummaryWriter _ | EvAddScalars _ _ _ _ | EvWriterClose _ | EvAddGraph _ _ => true
  | _ => false
  end.

Definition writer_calls (t : list event) : list event :=
  List.filter is_writer_event t.

(** A call that logs no validation scalar. *)
Definition omits_validation (ev : event) : Prop :=
  match ev with
  | EvAddScalars _ _ d _ => d !! "validation" = None
  | _ => True
  end.

(** The two loss histories have the same length. *)
Definition lockstep (s : State) : Prop :=
  length (losses s) = length (val_losses s).

(** Every checkpoint on disk holds two histories of the same length. *)
Definition files_lockstep (s : State) : Prop :=
  forall f c, files s !! f = Some c -> length (ck_loss c) = length (ck_val_loss c).

(** The checkpoint [save_checkpoint] builds in a state. *)
Definition checkpoint_of (s : State) : checkpoint := {|
  ck_epoch := total_epochs s;
  ck_model_state_dict := model_params s;
  ck_optimizer_state_dict := optimizer_state s;
  ck_loss := losses s;
  ck_val_loss := val_losses s
|}.

(** The public operations of an instance, with their arguments. *)
Inductive op : Type :=
| OpTo (d : string)
| OpSetLoaders (tl : DataLoader) (vl : option DataLoader)
| OpSetTensorboard (name folder : string) (suffix : option string)
| OpSetSeed (seed : Z)
| OpTrain (n_epochs seed : Z)
| OpSaveCheckpoint (filename : string)
| OpLoadCheckpoint (filename : string)
| OpPredict (x : ndarray)
| OpPlotLosses
| OpAddGraph.

Definition run_op (o : op) : M unit :=
  match o with
  | OpTo d => to d
  | OpSetLoaders tl vl => set_loaders tl vl
  | OpSetTensorboard name folder suffix => set_tensorboard name folder suffix
  | OpSetSeed seed => set_seed seed
  | OpTrain n_epochs seed => train n_epochs seed
  | OpSaveCheckpoint filename => save_checkpoint filename
  | OpLoadCheckpoint filename => load_checkpoint filename
  | OpPredict x => predict x ;; ret ()
  | OpPlotLosses => plot_losses
  | OpAddGraph => add_graph
  end.

Definition is_to (o : op) : bool :=
  match o with OpTo _ => true | _ => false end.

(** ** Exceptions raised and exceptions seen by the caller *)

(** The exceptions raised by library calls, read off a trace. *)
Fixpoint raised (t : list event) : list exn :=
  match t with
  | [] => []
  | EvRaise e :: t' => e :: raised t'
  | _ :: t' => raised t'
  end.

(** What the caller of an operation sees of them. *)
Definition seen {A} (r : result A) : list exn :=
  match r with Ok _ => [] | Raise e => [e] end.

(** An operation catches nothing when every exception raised inside it
    reaches its caller. *)
Definition propagates {A} (m : M A) : Prop :=
  forall s, raised (evs (m s)) = seen (res (m s)).

(** ** Predicates used by the properties *)

(** [holds I E m]: from a state in [I], running [m] ends in a state in [I]
    and makes only calls in [E], whether it returns or raises. *)
Definition holds {A} (I : State -> Prop) (E : event -> Prop) (m : M A) : Prop :=
  forall s, I s -> I (post (m s)) /\ Forall E (evs (m s)).

(** The calls that change parameters, gradients or optimizer state. *)
Definition is_update (ev : event) : bool :=
  match ev with
  | EvBackward _ | EvOptimizerStep | EvOptimizerZeroGrad
  | EvLoadStateDict _ | EvOptimizerLoadStateDict _ => true
  | _ => false
  end.

Definition same_parameters (s s' : State) : Prop :=
  model_params s' = model_params s /\
  model_grads s' = model_grads s /\
  optimizer_state s' = optimizer_state s.

(** The loop of [_mini_batch], with its body folded into [batch_step]. *)
Definition pass_loop (step_fn : tensor -> tensor -> M float)
    (batches : list (tensor * tensor)) (acc : list float) : M (list float) :=
  for_fold batches acc (fun b mini_batch_losses =>
    mini_batch_loss <~ batch_step step_fn b ;;
    ret (mini_batch_losses ++ [mini_batch_loss])).

(** The attributes a pass does not touch. *)
Definition same_bookkeeping (s0 s : State) : Prop :=
  losses s = losses s0 /\ val_losses s = val_losses s0 /\
  total_epochs s = total_epochs s0 /\ writer s = writer s0 /\
  train_loader s = train_loader s0 /\ val_loader s = val_loader s0 /\
  files s = files s0 /\ device s = device s0.

(** The histories agree on the instance and on disk. *)
Definition histories_agree (s : State) : Prop := lockstep s /\ files_lockstep s.

(** ** Predicates used by the further properties *)

(** What [train] is set up with: the attributes it never assigns. *)
Definition same_setup (s0 s : State) : Prop :=
  train_loader s = train_loader s0 /\ val_loader s = val_loader s0 /\
  writer s = writer s0 /\ device s = device s0 /\
  model_device s = model_device s0 /\ files s = files s0.

(** A tensor is only ever sent to device [d]. *)
Definition sent_to (d : string) (ev : event) : Prop :=
  match ev with
  | EvTensorTo d' _ => d' = d
  | _ => True
  end.

Definition is_forward (ev : event) : bool :=
  match ev with EvModuleCall _ => true | _ => false end.

Definition is_backward (ev : event) : bool :=
  match ev with EvBackward _ => true | _ => false end.

Definition is_optimizer_step (ev : event) : bool :=
  match ev with EvOptimizerStep => true | _ => false end.

(** [total_epochs] is the number of recorded training losses. *)
Definition counted (s : State) : Prop :=
  total_epochs s = Z.of_nat (length (losses s)).

(** The same for every checkpoint on disk. *)
Definition files_counted (s : State) : Prop :=
  forall f c, files s !! f = Some c -> ck_epoch c = Z.of_nat (length (ck_loss c)).

(** [self.device] is where the model is. *)
Definition device_agrees (s : State) : Prop := device s = model_device s.

(** The epoch count agrees with the history on the instance and on disk. *)
Definition counts_agree (s : State) : Prop := counted s /\ files_counted s.

Definition is_writer_close (ev : event) : bool :=
  match ev with EvWriterClose _ => true | _ => false end.

End StepByStep.

Arguments Out {T A} res post evs.
Arguments res {T A} o.
Arguments post {T A} o.
Arguments evs {T A} o.

Notation "x <~ m ;; k" := (bind m (fun x => k))
  (at level 100, m at next level, right associativity).
Notation "m ;; k" := (bind m (fun _ => k))
  (at level 100, right associativity).

(** * A concrete library: one-parameter least squares

    The instance the examples run on: the model is [yhat = w * x] with the
    single parameter [w], the loss is the squared error, the optimizer is
    plain gradient descent and the machine has no CUDA.  A tensor carries
    the derivative of its value with respect to [w] when the grad mode was
    on, which is all [backward] needs.

    Numbers are exact rationals, not IEEE floats: the instance stands for
    the library only on inputs where binary floating point computes without
    rounding.  Every run below starts from such inputs (weights, samples and
    learning rates that are small dyadic fractions, a handful of steps), and
    nothing is proved about this instance beyond those runs. *)
Module LinReg.
#[local] Open Scope Q_scope.

Inductive fl : Type :=
| Num (q : Q)
| NaN.

Record dual : Type := Dual {
  dim : nat;              (* number of features *)
  val : Q;
  dval : option Q         (* d val / d w, when a graph was recorded *)
}.

Definition cpu_only (d : string) : option exn :=
  if String.eqb d "cpu" then None
  else if String.eqb d "cuda" then Some (Exception "AssertionError")
  else Some RuntimeError.

Definition linear (w : Q) (training grad_on : bool) (x : dual) : result dual :=
  if Nat.eqb (dim x) 1%nat
  then Ok (Dual 1%nat (Qred (w * val x)) (if grad_on then Some (val x) else None))
  else Raise RuntimeError.

Definition mse (yhat y : dual) : result dual :=
  let r := val yhat - val y in
  Ok (Dual 0%nat (Qred (r * r))
        (match dval yhat with
         | Some d => Some (Qred (2 * r * d))
         | None => None
         end)).

Definition autograd (loss : dual) : result Q :=
  match dval loss with
  | Some g => Ok g
  | None => Raise RuntimeError
  end.

Definition accumulate (old : option Q) (g : Q) : Q :=
  match old with
  | Some g0 => Qred (g0 + g)
  | None => g
  end.

(** The optimizer's state: the learning rate of its one parameter group
    and the number of parameters in the group. *)
Record sgd_state : Type := SgdState {
  lr : Q;
  group_size : nat
}.

(** Gradient descent on the model's weight. *)
Definition sgd (o : sgd_state) (w : Q) (g : option Q) : result (sgd_state * Q) :=
  match g with
  | Some g => Ok (o, Qred (w - lr o * g))
  | None => Ok (o, w)
  end.

(** [Optimizer.load_state_dict] refuses a parameter group of another size. *)
Definition same_group_size (current saved : sgd_state) : bool :=
  Nat.eqb (group_size current) (group_size saved).

Definition mean (xs : list fl) : fl :=
  match xs with
  | [] => NaN
  | _ =>
      let add a x :=
        match a, x with
        | Num p, Num q => Num (p + q)
        | _, _ => NaN
        end in
      match fold_left add xs (Num 0) with
      | Num t => Num (Qred (t / inject_Z (Z.of_nat (length xs))))
      | NaN => NaN
      end
  end.

(** [np.random.seed] refuses negative seeds. *)
Definition seed_in_range (seed : Z) : option exn :=
  if (seed <? 0)%Z then Some (Exception "ValueError") else None.

Definition nonempty_path (f : string) : option exn :=
  if String.eqb f "" then Some (Exception "FileNotFoundError") else None.

(** The event writer turns every scalar into an array and refuses [None]
    with [NotImplementedError], a subclass of [RuntimeError]. *)
Definition scalars_are_numbers (d : gmap string (option fl)) : option exn :=
  if forallb (fun kv => match snd kv with Some _ => true | None => false end)
       (map_to_list d)
  then None else Some RuntimeError.

#[export] Instance torch : Torch := {|
  tensor := dual;
  ndarray := Q;
  float := fl;
  params := Q;
  grads := Q;
  ostate := sgd_state;
  generator := Z;
  cuda_is_available := false;
  module_to := cpu_only;
  tensor_to := fun d x => match cpu_only d with None => Ok x | Some e => Raise e end;
  module_call := linear;
  loss_call := mse;
  tensor_backward := autograd;
  grad_accumulate := accumulate;
  optimizer_update := sgd;
  tensor_item := fun t => Num (val t);
  np_mean := mean;
  module_accepts := fun _ _ => true;
  optimizer_accepts := same_group_size;
  module_partial_load := fun _ saved => saved;
  manual_seed := fun seed => Ok seed;
  np_random_seed := seed_in_range;
  file_writable := nonempty_path;
  writer_open := fun _ => None;
  add_scalars_check := scalars_are_numbers;
  add_graph_check := fun _ => None;
  as_float_tensor := fun x => Ok (Dual 1%nat x None);
  to_numpy := val
|}.

(** A loader that yields the same single-sample batches at every pass;
    [features] is the width of its inputs. *)
Definition loader_of (features : nat) (xys : list (Q * Q)) : DataLoader := {|
  dl_len := length xys;
  dl_iter := fun g =>
    (map (fun xy => (Dual features (fst xy) None, Dual 1%nat (snd xy) None)) xys, g)
|}.

Definition loader : list (Q * Q) -> DataLoader := loader_of 1.

(** The state before [__init__]: weight [w], and an optimizer with learning
    rate [lr] over [n] parameters (the weight, and [n - 1] that belong to
    other modules). *)
Definition fresh_over (n : nat) (w lr : Q) : State := {|
  device := ""; train_loader := None; val_loader := None; writer := None;
  losses := []; val_losses := []; total_epochs := 0%Z;
  model_params := w; model_grads := None; model_training := true;
  model_device := "cpu"; optimizer_state := SgdState lr n;
  grad_enabled := true; rng := 0%Z; files := ∅ |}.

Definition fresh : Q -> Q -> State := fresh_over 1.

(** [StepByStep(model, loss_fn, optimizer)] followed by [set_loaders]. *)
Definition trainer (w lr : Q) (tl : DataLoader) (vl : option DataLoader) : State :=
  post ((__init__ ;; set_loaders tl vl) (fresh w lr)).

(** [StepByStep(model, loss_fn, optimizer)] followed by [set_tensorboard]. *)
Definition logger (w lr : Q) : State :=
  post ((__init__ ;; set_tensorboard "linreg" "runs" None) (fresh w lr)).

(** No recorded loss is larger than the one before it. *)
Fixpoint never_increases (ls : list (option fl)) : bool :=
  match ls with
  | Some (Num a) :: ls' =>
      match ls' with
      | Some (Num b) :: _ => Qle_bool b a && never_increases ls'
      | [] => true
      | _ => false
      end
  | [] => true
  | _ => false
  end.

(** One sample [(1, 1)], weight [0], learning rate [1/4], with a validation
    sample [(1, 2)]. *)
Definition fitted : State :=
  trainer 0 (1 # 4) (loader [(1, 1)]) (Some (loader [(1, 2)])).

(** The same with a writer and no validation loader. *)
Definition logged : State :=
  post (set_loaders (loader [(1, 1)]) None (logger 0 (1 # 4))).

(** A trainer whose training loader yields no batch, and one with two
    batches. *)
Definition idle : State := trainer 0 (1 # 4) (loader []) None.

Definition two_batches : State :=
  trainer 0 (1 # 4) (loader [(1, 1); (2, 1)]) None.

(** A trainer whose validation batches are too wide for the model. *)
Definition ragged : State :=
  trainer 0 (1 # 4) (loader [(1, 1)]) (Some (loader_of 2 [(1, 2)])).

(** An instance whose optimizer also holds a parameter of another module
    trains for an epoch and saves a checkpoint; [shared_disk] is [fitted]
    on the disk that instance left. *)
Definition joint : State :=
  post ((__init__ ;; set_loaders (loader [(1, 1)]) None ;; train 1 42 ;;
         save_checkpoint "runs/joint.pth") (fresh_over 2 0 (1 # 4))).

Definition shared_disk : State := set_files (files joint) fitted.

End LinReg.

(** * Properties *)

Section Properties.
Context {T : Torch}.

(** ** Running the monad *)

(** Unfolds the monad and the accessors, and nothing of the library. *)
Ltac run :=
  cbv beta iota delta [bind emit gets modify ret raise lift check];
  cbn [res post evs app device train_loader val_loader writer losses val_losses
       total_epochs model_params model_grads model_training model_device
       optimizer_state grad_enabled rng files
       set_device set_train_loader set_val_loader set_writer set_losses
       set_val_losses set_total_epochs set_model_params set_model_grads
       set_model_training set_model_device set_optimizer_state
       set_grad_enabled set_rng set_files fst snd].

Lemma bind_ok {A B} (m : M A) (k : A -> M B) s a :
  res (m s) = Ok a ->
  bind m k s = Out (res (k a (post (m s)))) (post (k a (post (m s))))
                   (evs (m s) ++ evs (k a (post (m s)))).
Proof. unfold bind. destruct (m s) as [r s1 t1]. simpl. intros ->. now destruct (k a s1). Qed.

Lemma bind_raise {A B} (m : M A) (k : A -> M B) s e :
  res (m s) = Raise e ->
  bind m k s = Out (Raise e) (post (m s)) (evs (m s)).
Proof. unfold bind. destruct (m s) as [r s1 t1]. simpl. now intros ->. Qed.

Lemma bind_ok_inv {A B} (m : M A) (k : A -> M B) s b :
  res (bind m k s) = Ok b ->
  exists a, res (m s) = Ok a /\ res (k a (post (m s))) = Ok b.
Proof.
  unfold bind. destruct (m s) as [[a|e] s1 t1]; simpl; [|discriminate].
  intros H. exists a. split; [reflexivity|]. now destruct (k a s1).
Qed.

Lemma raised_app t1 t2 : raised (t1 ++ t2) = raised t1 ++ raised t2.
Proof.
  induction t1 as [|ev t1 IH]; [reflexivity|].
  destruct ev; simpl; now rewrite ?IH.
Qed.

(** ** Operations that catch nothing *)

Lemma propagates_ret {A} (a : A) : propagates (ret a).
Proof. now intros s. Qed.

Lemma propagates_raise {A} e : propagates (@raise T A e).
Proof. now intros s. Qed.

Lemma propagates_gets {A} (f : State -> A) : propagates (gets f).
Proof. now intros s. Qed.

Lemma propagates_modify f : propagates (modify f).
Proof. now intros s. Qed.

Lemma propagates_lift {A} (r : result A) : propagates (lift r).
Proof. destruct r; now intros s. Qed.

Lemma propagates_check o : propagates (check o).
Proof. destruct o; now intros s. Qed.

Lemma propagates_emit ev : raised [ev] = [] -> propagates (emit ev).
Proof. intros H s. simpl. exact H. Qed.

Lemma propagates_bind {A B} (m : M A) (k : A -> M B) :
  propagates m -> (forall a, propagates (k a)) -> propagates (bind m k).
Proof.
  intros Hm Hk s. unfold bind. specialize (Hm s).
  destruct (m s) as [[a|e] s1 t1]; simpl in *; [|exact Hm].
  specialize (Hk a s1). destruct (k a s1) as [r s2 t2]. simpl in *.
  now rewrite raised_app, Hm.
Qed.

Lemma propagates_with_no_grad {A} (body : M A) :
  propagates body -> propagates (with_no_grad body).
Proof.
  intros H s. unfold with_no_grad. specialize (H (set_grad_enabled false s)).
  destruct (body _) as [r s1 t1]. simpl in *.
  rewrite raised_app. simpl. now rewrite app_nil_r.
Qed.

Lemma propagates_for_each {A} (xs : list A) body :
  (forall x, propagates (body x)) -> propagates (for_each xs body).
Proof.
  intros H. induction xs as [|x xs IH]; simpl.
  - apply propagates_ret.
  - apply propagates_bind; auto.
Qed.

Lemma propagates_for_fold {A B} (xs : list A) (acc : B) body :
  (forall x a, propagates (body x a)) -> propagates (for_fold xs acc body).
Proof.
  intros H. revert acc. induction xs as [|x xs IH]; intros acc; simpl.
  - apply propagates_ret.
  - apply propagates_bind; auto.
Qed.

Create HintDb propagate.
#[local] Hint Resolve propagates_ret propagates_raise propagates_gets
  propagates_modify propagates_lift propagates_check
  propagates_with_no_grad propagates_for_each propagates_for_fold : propagate.
#[local] Hint Extern 1 (propagates (emit _)) =>
  apply propagates_emit; reflexivity : propagate.

(** Goes through an operation call by call. *)
Ltac propagate :=
  repeat first
    [ solve [auto with propagate]
    | apply propagates_bind; [| intros ?; cbv beta]
    | apply propagates_with_no_grad
    | apply propagates_for_each; intros ?
    | apply propagates_for_fold; intros ? ?
    | match goal with
      | |- propagates (match ?x with _ => _ end) => destruct x
      | |- propagates (if ?x then _ else _) => destruct x
      end ].

Lemma propagates_model_to d : propagates (model_to d).
Proof. unfold model_to. propagate. Qed.

Lemma propagates_train_step x y : propagates (perform_train_step_fn x y).
Proof.
  unfold perform_train_step_fn, model_train, model_call, loss_fn, backward,
    optimizer_step, optimizer_zero_grad, item.
  propagate.
Qed.

Lemma propagates_val_step x y : propagates (perform_val_step_fn x y).
Proof.
  unfold perform_val_step_fn, model_eval, model_call, loss_fn, item.
  propagate.
Qed.

Lemma propagates_mini_batch v : propagates (_mini_batch v).
Proof.
  unfold _mini_batch, iterate, tensor_to_device.
  pose proof propagates_train_step. pose proof propagates_val_step.
  destruct v; propagate.
Qed.

Lemma propagates_set_seed seed : propagates (set_seed seed).
Proof. unfold set_seed. propagate. Qed.

Lemma propagates_train_epoch epoch : propagates (train_epoch epoch).
Proof.
  unfold train_epoch, add_scalars. pose proof propagates_mini_batch.
  propagate.
Qed.

Lemma propagates_op o : is_to o = false -> propagates (run_op o).
Proof.
  pose proof propagates_train_epoch. pose proof propagates_set_seed.
  destruct o; simpl; [discriminate|..]; intros _.
  - unfold set_loaders. propagate.
  - unfold set_tensorboard, SummaryWriter. propagate.
  - propagate.
  - unfold train, writer_close. propagate.
  - unfold save_checkpoint, state_dict, optimizer_state_dict, torch_save.
    propagate.
  - unfold load_checkpoint, torch_load, load_state_dict,
      optimizer_load_state_dict, model_train.
    propagate.
  - unfold predict, model_eval, model_train, tensor_to_device, model_call.
    propagate.
  - unfold plot_losses. propagate.
  - unfold add_graph, iterate, tensor_to_device, writer_add_graph. propagate.
Qed.


(** ** What a piece of code leaves alone *)

Section Holds.
Variable I : State -> Prop.
Variable E : event -> Prop.

Lemma holds_ret {A} (a : A) : holds I E (ret a).
Proof. intros s Hs. split; [exact Hs | constructor]. Qed.

Lemma holds_gets {A} (f : State -> A) : holds I E (gets f).
Proof. intros s Hs. split; [exact Hs | constructor]. Qed.

Lemma holds_raise {A} e : E (EvRaise e) -> holds I E (@raise T A e).
Proof. intros He s Hs. split; [exact Hs | now repeat constructor]. Qed.

Lemma holds_emit ev : E ev -> holds I E (emit ev).
Proof. intros He s Hs. split; [exact Hs | now repeat constructor]. Qed.

Lemma holds_modify f : (forall s, I s -> I (f s)) -> holds I E (modify f).
Proof. intros Hf s Hs. split; [now apply Hf | constructor]. Qed.

Lemma holds_lift {A} (r : result A) :
  (forall e, E (EvRaise e)) -> holds I E (lift r).
Proof. intros He. destruct r; [apply holds_ret | now apply holds_raise]. Qed.

Lemma holds_check o : (forall e, E (EvRaise e)) -> holds I E (check o).
Proof. intros He. destruct o; [now apply holds_raise | apply holds_ret]. Qed.

Lemma holds_bind {A B} (m : M A) (k : A -> M B) :
  holds I E m -> (forall a, holds I E (k a)) -> holds I E (bind m k).
Proof.
  intros Hm Hk s Hs. unfold bind. destruct (Hm s Hs) as [HI HE].
  destruct (m s) as [[a|e] s1 t1]; simpl in *; [|now split].
  destruct (Hk a s1 HI) as [HI' HE']. destruct (k a s1) as [r s2 t2].
  simpl in *. split; [exact HI'|]. apply Forall_app. now split.
Qed.

Lemma holds_for_each {A} (xs : list A) body :
  (forall x, holds I E (body x)) -> holds I E (for_each xs body).
Proof.
  intros H. induction xs as [|x xs IH]; simpl.
  - apply holds_ret.
  - apply holds_bind; auto.
Qed.

Lemma holds_for_fold {A B} (xs : list A) (acc : B) body :
  (forall x a, holds I E (body x a)) -> holds I E (for_fold xs acc body).
Proof.
  intros H. revert acc. induction xs as [|x xs IH]; intros acc; simpl.
  - apply holds_ret.
  - apply holds_bind; auto.
Qed.

Lemma holds_with_no_grad {A} (body : M A) :
  (forall b s, I s -> I (set_grad_enabled b s)) ->
  E EvNoGradEnter -> E EvNoGradExit ->
  holds I E body -> holds I E (with_no_grad body).
Proof.
  intros Hg H1 H2 Hb s Hs. unfold with_no_grad.
  destruct (Hb (set_grad_enabled false s)) as [HI HE]; [now apply Hg|].
  destruct (body _) as [r s1 t1]. simpl in *. split; [now apply Hg|].
  constructor; [exact H1|]. apply Forall_app. split; [exact HE|].
  now repeat constructor.
Qed.

End Holds.

(** Goes through a piece of code call by call; what is left are the
    conditions on the single assignments and events. *)
Ltac hold_step :=
  first
    [ match goal with
      | H : holds _ _ _ |- _ => exact H
      | H : forall x, holds _ _ _ |- _ => apply H
      | H : forall x y, holds _ _ _ |- _ => apply H
      end
    | apply holds_bind; [| intros ?; cbv beta]
    | apply holds_for_each; intros ?; cbv beta
    | apply holds_for_fold; intros ? ?; cbv beta
    | apply holds_ret
    | apply holds_gets
    | apply holds_lift
    | apply holds_check
    | apply holds_raise
    | apply holds_emit
    | apply holds_modify; intros ?
    | match goal with
      | |- holds _ _ (match ?x with _ => _ end) => destruct x
      | |- holds _ _ (if ?x then _ else _) => destruct x
      end ].

Ltac hold := repeat hold_step.


Lemma val_step_holds s0 x y :
  holds (same_parameters s0) (fun ev => is_update ev = false)
    (perform_val_step_fn x y).
Proof.
  unfold perform_val_step_fn, model_eval, model_call, loss_fn, item.
  hold; try reflexivity; try (intros; reflexivity).
  all: intros H; exact H.
Qed.

Lemma val_pass_holds s0 :
  holds (same_parameters s0) (fun ev => is_update ev = false)
    (_mini_batch true).
Proof.
  pose proof (val_step_holds s0) as Hv.
  unfold _mini_batch, iterate, tensor_to_device.
  hold; try reflexivity; try (intros; reflexivity).
  all: intros H; exact H.
Qed.

(** ** The training and validation steps *)

(** C4.  The training step makes its library calls in one fixed order:
    [model.train()], the forward pass [model(x)], [loss_fn(yhat, y)],
    [loss.backward()], [optimizer.step()], [optimizer.zero_grad()] and
    [loss.item()], whose value it returns.  The gradients are the ones
    [backward] delivers and the new parameters the ones [step] delivers; when
    a call raises, the calls made so far are an initial segment of that
    sequence and the exception reaches the caller. *)
Theorem train_step_order (x y : tensor) (s : State) :
  let o := perform_train_step_fn x y s in
  let p := model_params s in
  match module_call p true (grad_enabled s) x with
  | Raise e =>
      res o = Raise e /\ model_params (post o) = p /\
      evs o = [EvModuleTrain; EvModuleCall x; EvRaise e]
  | Ok yhat =>
    match loss_call yhat y with
    | Raise e =>
        res o = Raise e /\ model_params (post o) = p /\
        evs o = [EvModuleTrain; EvModuleCall x; EvLossCall yhat y; EvRaise e]
    | Ok loss =>
      match tensor_backward loss with
      | Raise e =>
          res o = Raise e /\ model_params (post o) = p /\
          evs o = [EvModuleTrain; EvModuleCall x; EvLossCall yhat y;
                   EvBackward loss; EvRaise e]
      | Ok g =>
        let g' := Some (grad_accumulate (model_grads s) g) in
        match optimizer_update (optimizer_state s) p g' with
        | Raise e =>
            res o = Raise e /\ model_params (post o) = p /\
            model_grads (post o) = g' /\
            evs o = [EvModuleTrain; EvModuleCall x; EvLossCall yhat y;
                     EvBackward loss; EvOptimizerStep; EvRaise e]
        | Ok op =>
            res o = Ok (tensor_item loss) /\
            model_params (post o) = snd op /\
            optimizer_state (post o) = fst op /\
            model_grads (post o) = None /\
            model_training (post o) = true /\
            evs o = [EvModuleTrain; EvModuleCall x; EvLossCall yhat y;
                     EvBackward loss; EvOptimizerStep; EvOptimizerZeroGrad;
                     EvItem loss]
        end
      end
    end
  end.
Proof.
  unfold perform_train_step_fn, model_train, model_call, loss_fn, backward,
    optimizer_step, optimizer_zero_grad, item.
  run.
  destruct (module_call _ _ _ x) as [yhat|e]; run; [|now repeat split].
  destruct (loss_call yhat y) as [loss|e]; run; [|now repeat split].
  destruct (tensor_backward loss) as [g|e]; run; [|now repeat split].
  destruct (optimizer_update _ _ _) as [op|e]; run; now repeat split.
Qed.

(** C9.  The validation step only puts the model in eval mode, runs the
    forward pass, computes the loss and returns its value: it calls neither
    [backward] nor the optimizer, so parameters, gradients and optimizer
    state are the same after the step, and after a whole validation pass, as
    before it. *)
Theorem validation_keeps_parameters :
  (forall (x y : tensor) (s : State),
     let o := perform_val_step_fn x y s in
     same_parameters s (post o) /\
     model_training (post o) = false /\
     match module_call (model_params s) false (grad_enabled s) x with
     | Raise e =>
         res o = Raise e /\ evs o = [EvModuleEval; EvModuleCall x; EvRaise e]
     | Ok yhat =>
       match loss_call yhat y with
       | Raise e =>
           res o = Raise e /\
           evs o = [EvModuleEval; EvModuleCall x; EvLossCall yhat y; EvRaise e]
       | Ok loss =>
           res o = Ok (tensor_item loss) /\
           evs o = [EvModuleEval; EvModuleCall x; EvLossCall yhat y; EvItem loss]
       end
     end) /\
  (forall s : State,
     let o := _mini_batch true s in
     same_parameters s (post o) /\
     Forall (fun ev => is_update ev = false) (evs o)) /\
  (forall s : State,
     let o := with_no_grad (_mini_batch true) s in
     same_parameters s (post o) /\
     grad_enabled (post o) = grad_enabled s /\
     Forall (fun ev => is_update ev = false) (evs o)).
Proof.
  split; [|split].
  - intros x y s.
    unfold perform_val_step_fn, model_eval, model_call, loss_fn, item.
    run.
    destruct (module_call _ _ _ x) as [yhat|e]; run; [|now repeat split].
    destruct (loss_call yhat y) as [loss|e]; run; now repeat split.
  - intros s. apply (val_pass_holds s). now repeat split.
  - intros s. unfold with_no_grad.
    destruct (val_pass_holds s (set_grad_enabled false s)) as [H1 H2];
      [now repeat split|].
    destruct (_mini_batch true _) as [r s1 t1]. simpl in *.
    split; [exact H1|]. split; [reflexivity|].
    constructor; [reflexivity|]. apply Forall_app. split; [exact H2|].
    now repeat constructor.
Qed.

(** ** Exceptions *)

(** C2.  [to] is the one place where an exception is handled.  When the move
    succeeds, [self.device] is the requested device and the model is there.
    When the move raises [RuntimeError], [self.device] becomes ['cuda'] if
    CUDA is available and ['cpu'] otherwise, and the model is sent there; the
    caller sees nothing of the exception.  Any other exception leaves [to]
    as it is, and so does every exception raised inside [__init__] or any
    other public operation. *)
Theorem to_device_fallback :
  (forall (d : string) (s : State),
     let o := to d s in
     match module_to d with
     | None =>
         res o = Ok () /\ device (post o) = d /\ model_device (post o) = d /\
         raised (evs o) = []
     | Some RuntimeError =>
         device (post o) = default_device /\
         match module_to default_device with
         | None =>
             res o = Ok () /\ model_device (post o) = default_device /\
             raised (evs o) = [RuntimeError]
         | Some e =>
             res o = Raise e /\ model_device (post o) = model_device s
         end
     | Some e =>
         res o = Raise e /\ device (post o) = d /\
         model_device (post o) = model_device s
     end) /\
  default_device = (if cuda_is_available then "cuda" else "cpu") /\
  propagates __init__ /\
  (forall o : op,
     match o with
     | OpTo _ => True
     | _ => propagates (run_op o)
     end).
Proof.
  split; [|split; [reflexivity|split]].
  - intros d s. unfold to, try_except_RuntimeError, model_to, print. run.
    destruct (module_to d) as [[|name]|]; run; [|now repeat split..].
    destruct (module_to default_device) as [e|]; run; now repeat split.
  - unfold __init__. pose proof propagates_model_to. propagate.
  - intros o. pose proof (propagates_op o) as H.
    destruct o; first [exact I | now apply H].
Qed.


(** ** One pass over a loader *)

Lemma mini_batch_none (validation : bool) (s : State) :
  (if validation then val_loader s else train_loader s) = None ->
  _mini_batch validation s = Out (Ok None) s [].
Proof.
  intros H. unfold _mini_batch. run.
  destruct validation; rewrite H; reflexivity.
Qed.

Lemma for_fold_ext {A B} (xs : list A) (acc : B) body body' s :
  (forall x a s, body x a s = body' x a s) ->
  for_fold xs acc body s = for_fold xs acc body' s.
Proof.
  intros H. revert acc s. induction xs as [|x xs IH]; intros acc s; simpl.
  - reflexivity.
  - unfold bind. rewrite H. destruct (body' x acc s) as [[a|e] s1 t1]; [|reflexivity].
    now rewrite IH.
Qed.

Lemma mini_batch_some (validation : bool) (s : State) dl :
  (if validation then val_loader s else train_loader s) = Some dl ->
  _mini_batch validation s =
  match pass_loop (if validation then perform_val_step_fn else perform_train_step_fn)
          (fst (dl_iter dl (rng s))) [] (set_rng (snd (dl_iter dl (rng s))) s) with
  | Out (Ok ls) s' t => Out (Ok (Some (np_mean ls))) s' t
  | Out (Raise e) s' t => Out (Raise e) s' t
  end.
Proof.
  intros H. unfold _mini_batch, iterate.
  destruct validation; run; rewrite H; run.
  all: match goal with
       | |- context [pass_loop ?f ?bs ?acc ?s0] =>
           change (pass_loop f bs acc s0) with
             (for_fold bs acc (fun b mini_batch_losses =>
                mini_batch_loss <~ batch_step f b ;;
                ret (mini_batch_losses ++ [mini_batch_loss])) s0);
           erewrite (for_fold_ext bs acc _ (fun b mini_batch_losses =>
                mini_batch_loss <~ batch_step f b ;;
                ret (mini_batch_losses ++ [mini_batch_loss])))
       end.
  all: try (destruct (for_fold _ _ _ _) as [[ls|e] s' t]; [|reflexivity];
            now rewrite app_nil_r).
  all: intros b acc s0; unfold batch_step, tensor_to_device; run;
    destruct (tensor_to _ (fst b)) as [xb|e]; run; [|reflexivity];
    destruct (tensor_to _ (snd b)) as [yb|e]; run; [|reflexivity];
    match goal with
    | |- context [perform_val_step_fn xb yb s0] =>
        destruct (perform_val_step_fn xb yb s0) as [[l|e] s1 t1]
    | |- context [perform_train_step_fn xb yb s0] =>
        destruct (perform_train_step_fn xb yb s0) as [[l|e] s1 t1]
    end; reflexivity.
Qed.

Lemma pass_loop_losses step_fn batches acc s ls :
  res (pass_loop step_fn batches acc s) = Ok ls ->
  ls = acc ++ pass_losses step_fn batches s /\
  length (pass_losses step_fn batches s) = length batches.
Proof.
  revert acc s. induction batches as [|b bs IH]; intros acc s; simpl.
  - intros [= <-]. now rewrite app_nil_r.
  - unfold pass_loop in *. simpl. unfold bind at 1 2.
    destruct (batch_step step_fn b s) as [[l|e] s1 t1]; simpl; [|discriminate].
    destruct (for_fold bs _ _ s1) as [r s2 t2] eqn:Hf. simpl. intros ->.
    destruct (IH (acc ++ [l]) s1) as [H1 H2]; [now rewrite Hf|].
    split; [|now rewrite H2]. now rewrite H1, <- app_assoc.
Qed.




(** ** One epoch and the epoch loop *)

Lemma same_bookkeeping_refl s : same_bookkeeping s s.
Proof. now repeat split. Qed.

Lemma mini_batch_bookkeeping s0 validation :
  holds (same_bookkeeping s0) (fun ev => is_writer_event ev = false)
    (_mini_batch validation).
Proof.
  unfold _mini_batch, iterate, tensor_to_device, perform_train_step_fn,
    perform_val_step_fn, model_train, model_eval, model_call, loss_fn,
    backward, optimizer_step, optimizer_zero_grad, item.
  destruct validation; hold; try reflexivity; try (intros; reflexivity).
  all: intros H; exact H.
Qed.

Lemma set_seed_bookkeeping s0 seed :
  holds (same_bookkeeping s0) (fun ev => is_writer_event ev = false)
    (set_seed seed).
Proof.
  unfold set_seed.
  hold; try reflexivity; try (intros; reflexivity).
  all: intros H; exact H.
Qed.

Lemma train_epoch_run (epoch : Z) (s : State) :
  train_epoch epoch s =
  match _mini_batch false (set_total_epochs (total_epochs s + 1) s) with
  | Out (Raise e) s1 t1 => Out (Raise e) s1 t1
  | Out (Ok l) s1 t1 =>
    match _mini_batch true
            (set_grad_enabled false (set_losses (losses s1 ++ [l]) s1)) with
    | Out (Raise e) s2 t2 =>
        Out (Raise e) (set_grad_enabled (grad_enabled s1) s2)
            (t1 ++ EvNoGradEnter :: t2 ++ [EvNoGradExit])
    | Out (Ok v) s2 t2 =>
        let s3 := set_grad_enabled (grad_enabled s1)
                    (set_val_losses (val_losses s2 ++ [v]) s2) in
        match writer s2 with
        | None => Out (Ok ()) s3 (t1 ++ EvNoGradEnter :: t2 ++ [EvNoGradExit])
        | Some w =>
            match add_scalars_check (epoch_scalars l v) with
            | None =>
                Out (Ok ()) s3
                  (t1 ++ EvNoGradEnter :: t2 ++
                     [EvNoGradExit; EvAddScalars w "loss" (epoch_scalars l v) epoch])
            | Some e =>
                Out (Raise e) s3
                  (t1 ++ EvNoGradEnter :: t2 ++
                     [EvNoGradExit; EvAddScalars w "loss" (epoch_scalars l v) epoch;
                      EvRaise e])
            end
        end
    end
  end.
Proof.
  unfold train_epoch, with_no_grad, add_scalars. run.
  destruct (_mini_batch false _) as [[l|e] s1 t1]; run; [|reflexivity].
  destruct (_mini_batch true _) as [[v|e] s2 t2]; run.
  - destruct (writer s2) as [w|]; run.
    + change (match v with
              | Some _ => <["validation":=v]> {["training" := l]}
              | None => {["training" := l]}
              end) with (epoch_scalars l v).
      destruct (add_scalars_check _) as [e|]; run;
        rewrite ?app_nil_r, <- ?app_assoc; simpl; rewrite <- ?app_assoc;
        reflexivity.
    + rewrite ?app_nil_r, <- ?app_assoc. simpl. now rewrite ?app_nil_r.
  - rewrite ?app_nil_r. reflexivity.
Qed.

Lemma train_run (n_epochs seed : Z) (s : State) :
  train n_epochs seed s =
  match set_seed seed s with
  | Out (Raise e) s0 t0 => Out (Raise e) s0 t0
  | Out (Ok _) s0 t0 =>
    match for_each (range n_epochs) train_epoch s0 with
    | Out (Raise e) s1 t1 => Out (Raise e) s1 (t0 ++ t1)
    | Out (Ok _) s1 t1 =>
        Out (Ok ()) s1
          (t0 ++ t1 ++
             match writer s1 with Some w => [EvWriterClose w] | None => [] end)
    end
  end.
Proof.
  unfold train, writer_close. run.
  destruct (set_seed seed s) as [[[]|e] s0 t0]; [|reflexivity].
  destruct (for_each _ _ s0) as [[[]|e] s1 t1]; [|reflexivity].
  destruct (writer s1); run; now rewrite ?app_nil_r.
Qed.

Lemma for_each_runs_epochs epochs s s' t :
  for_each epochs train_epoch s = Out (Ok ()) s' t ->
  exists ls vs, runs_epochs epochs s ls vs t s'.
Proof.
  revert s s' t. induction epochs as [|epoch epochs IH]; intros s s' t; simpl.
  - intros [= <- <-]. exists [], []. constructor.
  - unfold bind. rewrite train_epoch_run.
    destruct (_mini_batch false _) as [[l|e] s1 t1] eqn:H1; [|discriminate].
    destruct (_mini_batch true _) as [[v|e] s2 t2] eqn:H2; [|discriminate].
    assert (forall tw,
      match for_each epochs train_epoch
              (set_grad_enabled (grad_enabled s1)
                 (set_val_losses (val_losses s2 ++ [v]) s2)) with
      | Out r s4 t4 =>
          Out r s4 ((t1 ++ EvNoGradEnter :: t2 ++ EvNoGradExit :: tw) ++ t4)
      end = Out (Ok ()) s' t ->
      tw = epoch_log (writer s2) l v epoch ->
      exists ls vs, runs_epochs (epoch :: epochs) s ls vs t s') as Hgo.
    { intros tw Hf ->.
      destruct (for_each epochs _ _) as [r s4 t4] eqn:Hf'.
      injection Hf as -> <- <-.
      destruct (IH _ _ _ Hf') as (ls & vs & Hrun).
      exists (l :: ls), (v :: vs).
      rewrite <- app_assoc. simpl. rewrite <- app_assoc. simpl.
      eapply runs_epoch; eassumption. }
    cbv zeta. destruct (writer s2) as [w|] eqn:Hw.
    + destruct (add_scalars_check _) as [e|]; [discriminate|].
      intros Hf. eapply Hgo; [exact Hf | reflexivity].
    + intros Hf. eapply Hgo; [exact Hf | reflexivity].
Qed.


Lemma writer_calls_app t1 t2 :
  writer_calls (t1 ++ t2) = writer_calls t1 ++ writer_calls t2.
Proof. apply List.filter_app. Qed.

Lemma writer_calls_none t :
  Forall (fun ev => is_writer_event ev = false) t -> writer_calls t = [].
Proof.
  induction 1 as [|ev t Hev _ IH]; [reflexivity|].
  unfold writer_calls in *. simpl. now rewrite Hev.
Qed.

Lemma writer_calls_epoch_log w l v epoch :
  writer_calls (epoch_log w l v epoch) = epoch_log w l v epoch.
Proof. now destruct w. Qed.

(** A completed pass: what it leaves alone. *)
Lemma mini_batch_ok_bookkeeping validation s r s1 t1 :
  _mini_batch validation s = Out r s1 t1 ->
  same_bookkeeping s s1 /\ writer_calls t1 = [].
Proof.
  intros H.
  destruct (mini_batch_bookkeeping s validation s (same_bookkeeping_refl s))
    as [H1 H2].
  rewrite H in H1, H2. simpl in *. split; [exact H1|].
  now apply writer_calls_none.
Qed.

Lemma runs_epochs_facts epochs s ls vs t s' :
  runs_epochs epochs s ls vs t s' ->
  length ls = length epochs /\ length vs = length epochs /\
  losses s' = losses s ++ ls /\ val_losses s' = val_losses s ++ vs /\
  total_epochs s' = total_epochs s + Z.of_nat (length epochs) /\
  writer s' = writer s /\ train_loader s' = train_loader s /\
  val_loader s' = val_loader s /\ files s' = files s /\
  writer_calls t = epochs_log (writer s) epochs ls vs.
Proof.
  induction 1 as [s|epoch epochs s l s1 t1 v s2 t2 ls vs t s' H1 H2 Hrun IH].
  - simpl. rewrite !app_nil_r. repeat split; lia.
  - apply mini_batch_ok_bookkeeping in H1, H2.
    destruct H1 as [(L1 & V1 & N1 & W1 & TL1 & VL1 & F1 & _) C1].
    destruct H2 as [(L2 & V2 & N2 & W2 & TL2 & VL2 & F2 & _) C2].
    destruct IH as (IH1 & IH2 & IH3 & IH4 & IH5 & IH6 & IH7 & IH8 & IH9 & IH10).
    cbn [losses val_losses total_epochs writer train_loader val_loader files
         set_grad_enabled set_val_losses set_losses set_total_epochs] in *.
    repeat split.
    + simpl. now rewrite IH1.
    + simpl. now rewrite IH2.
    + rewrite IH3, L2, L1. now rewrite <- app_assoc.
    + rewrite IH4, V2, V1. now rewrite <- app_assoc.
    + rewrite IH5, N2, N1. simpl length. lia.
    + now rewrite IH6, W2, W1.
    + now rewrite IH7, TL2, TL1.
    + now rewrite IH8, VL2, VL1.
    + now rewrite IH9, F2, F1.
    + change (EvNoGradEnter :: t2 ++ EvNoGradExit :: epoch_log (writer s2) l v epoch ++ t)
        with ([EvNoGradEnter] ++ t2 ++ [EvNoGradExit] ++ epoch_log (writer s2) l v epoch ++ t).
      rewrite !writer_calls_app, C1, C2, writer_calls_epoch_log, IH10.
      cbn [epochs_log]. now rewrite W2, W1.
Qed.

Lemma length_range n : length (range n) = Z.to_nat n.
Proof. unfold range. now rewrite length_map, length_seq. Qed.

(** C5.  When the selected loader is set, the value a completed
    [_mini_batch] returns is [np.mean] of the losses the step function
    returned for the batches of that loader, one per batch and in loader
    order; and for the training pass of an epoch of [train] that returns,
    this value is what the epoch appends to [losses]. *)
Theorem mini_batch_mean (validation : bool) (s : State) (dl : DataLoader)
    (r : option float) :
  (if validation then val_loader s else train_loader s) = Some dl ->
  res (_mini_batch validation s) = Ok r ->
  let batches := fst (dl_iter dl (rng s)) in
  let step_fn := if validation then perform_val_step_fn else perform_train_step_fn in
  let ls := pass_losses step_fn batches (set_rng (snd (dl_iter dl (rng s))) s) in
  length ls = length batches /\
  r = Some (np_mean ls) /\
  (validation = false ->
   forall (epoch : Z) (s0 : State),
     s = set_total_epochs (total_epochs s0 + 1) s0 ->
     res (train_epoch epoch s0) = Ok () ->
     losses (post (train_epoch epoch s0)) = losses s0 ++ [r]).
Proof.
  intros Hdl Hr. cbv zeta. split; [|split].
  - rewrite (mini_batch_some _ _ _ Hdl) in Hr.
    destruct (pass_loop _ _ _ _) as [[ls|e] s' t] eqn:Hp; simpl in Hr; [|discriminate].
    apply (f_equal res), pass_loop_losses in Hp. now destruct Hp.
  - rewrite (mini_batch_some _ _ _ Hdl) in Hr.
    destruct (pass_loop _ _ _ _) as [[ls|e] s' t] eqn:Hp; simpl in Hr; [|discriminate].
    apply (f_equal res), pass_loop_losses in Hp. destruct Hp as [H1 H2].
    simpl in H1. subst ls. now injection Hr as <-.
  - intros -> epoch s0 -> Hok. rewrite train_epoch_run in *.
    destruct (_mini_batch false _) as [[l|e] s1 t1] eqn:H1; [|discriminate].
    simpl in Hr. injection Hr as ->.
    apply mini_batch_ok_bookkeeping in H1. destruct H1 as [(L1 & _) _].
    destruct (_mini_batch true _) as [[v|e] s2 t2] eqn:H2; [|discriminate].
    apply mini_batch_ok_bookkeeping in H2. destruct H2 as [(L2 & _) _].
    simpl in L1, L2.
    assert (losses s2 = losses s0 ++ [r]) as HL by (now rewrite L2, L1).
    cbv zeta. destruct (writer s2); [destruct (add_scalars_check _)|];
      simpl; exact HL.
Qed.

(** C3.  A call [train(n_epochs, seed)] that returns runs exactly [n_epochs]
    epochs after seeding.  Each epoch makes one full training pass and appends
    its loss to [losses], then one full validation pass with the grad mode
    off and appends its value to [val_losses]; [total_epochs] grows by
    [n_epochs] in all. *)
Theorem train_runs_epochs (n_epochs seed : Z) (s : State) :
  0 <= n_epochs ->
  res (train n_epochs seed s) = Ok () ->
  let o := train n_epochs seed s in
  exists s0 t0 ls vs t,
    set_seed seed s = Out (Ok ()) s0 t0 /\
    runs_epochs (range n_epochs) s0 ls vs t (post o) /\
    evs o = t0 ++ t ++
      match writer (post o) with Some w => [EvWriterClose w] | None => [] end /\
    Z.of_nat (length (range n_epochs)) = n_epochs /\
    Z.of_nat (length ls) = n_epochs /\
    Z.of_nat (length vs) = n_epochs /\
    losses (post o) = losses s ++ ls /\
    val_losses (post o) = val_losses s ++ vs /\
    total_epochs (post o) = total_epochs s + n_epochs.
Proof.
  intros Hn Hok. cbv zeta. rewrite train_run in *.
  destruct (set_seed seed s) as [[[]|e] s0 t0] eqn:Hseed; [|discriminate].
  destruct (for_each _ _ s0) as [[[]|e] s1 t1] eqn:Hloop; [|discriminate].
  simpl. destruct (for_each_runs_epochs _ _ _ _ Hloop) as (ls & vs & Hrun).
  exists s0, t0, ls, vs, t1.
  destruct (runs_epochs_facts _ _ _ _ _ _ Hrun)
    as (F1 & F2 & F3 & F4 & F5 & _).
  destruct (set_seed_bookkeeping s seed s (same_bookkeeping_refl s)) as [HB _].
  rewrite Hseed in HB. simpl in HB. destruct HB as (L & V & N & _).
  rewrite length_range in *.
  repeat split; try assumption; try lia.
  - now rewrite F3, L.
  - now rewrite F4, V.
Qed.


(** ** TensorBoard logging *)

Lemma train_epoch_no_writer epoch s :
  writer s = None ->
  writer (post (train_epoch epoch s)) = None /\
  writer_calls (evs (train_epoch epoch s)) = [].
Proof.
  intros Hw. rewrite train_epoch_run.
  destruct (_mini_batch false _) as [[l|e] s1 t1] eqn:H1;
    apply mini_batch_ok_bookkeeping in H1;
    destruct H1 as [(_ & _ & _ & W1 & _) C1]; simpl in W1;
    [|simpl; split; congruence].
  destruct (_mini_batch true _) as [[v|e] s2 t2] eqn:H2;
    apply mini_batch_ok_bookkeeping in H2;
    destruct H2 as [(_ & _ & _ & W2 & _) C2]; simpl in W2.
  - cbv zeta. replace (writer s2) with (@None string) by congruence. simpl.
    split; [congruence|].
    change (EvNoGradEnter :: t2 ++ [EvNoGradExit])
      with ([EvNoGradEnter] ++ t2 ++ [EvNoGradExit]).
    now rewrite !writer_calls_app, C1, C2.
  - simpl. split; [congruence|].
    change (EvNoGradEnter :: t2 ++ [EvNoGradExit])
      with ([EvNoGradEnter] ++ t2 ++ [EvNoGradExit]).
    now rewrite !writer_calls_app, C1, C2.
Qed.

Lemma for_each_no_writer epochs s :
  writer s = None ->
  writer (post (for_each epochs train_epoch s)) = None /\
  writer_calls (evs (for_each epochs train_epoch s)) = [].
Proof.
  revert s. induction epochs as [|epoch epochs IH]; intros s Hw; simpl.
  - now split.
  - unfold bind. destruct (train_epoch_no_writer epoch s Hw) as [H1 H2].
    destruct (train_epoch epoch s) as [[[]|e] s1 t1]; simpl in *; [|now split].
    destruct (IH s1 H1) as [H3 H4].
    destruct (for_each epochs train_epoch s1) as [r s2 t2]. simpl in *.
    split; [exact H3|]. now rewrite writer_calls_app, H2, H4.
Qed.

Lemma set_seed_inv seed s r s0 t0 :
  set_seed seed s = Out r s0 t0 ->
  same_bookkeeping s s0 /\ writer_calls t0 = [].
Proof.
  intros H.
  destruct (set_seed_bookkeeping s seed s (same_bookkeeping_refl s)) as [H1 H2].
  rewrite H in H1, H2. simpl in *. split; [exact H1|].
  now apply writer_calls_none.
Qed.

Lemma epoch_scalars_training (l v : option float) :
  epoch_scalars l v !! "training" = Some l.
Proof.
  unfold epoch_scalars. destruct v.
  - rewrite lookup_insert_ne by discriminate. apply lookup_singleton_eq.
  - apply lookup_singleton_eq.
Qed.

Lemma epoch_scalars_validation (l v : option float) :
  epoch_scalars l v !! "validation" =
  match v with Some _ => Some v | None => None end.
Proof.
  unfold epoch_scalars. destruct v.
  - apply lookup_insert_eq.
  - apply lookup_singleton_ne. discriminate.
Qed.

(** C6.  Logging depends on the writer alone.  After [__init__] there is no
    writer and [set_tensorboard] sets one.  Without a writer [train] makes
    no call on a SummaryWriter at all.  With a writer, a [train] that
    returns has called [add_scalars] once per epoch, in order, under the main
    tag ['loss'] and with the epoch as step, and has closed the writer at the
    end; the scalars of an epoch hold its training loss always and its
    validation value exactly when that is not [None]. *)
Theorem tensorboard_logging :
  (forall s : State,
     res (__init__ s) = Ok () -> writer (post (__init__ s)) = None) /\
  (forall (name folder : string) (suffix : option string) (s : State),
     res (set_tensorboard name folder suffix s) = Ok () ->
     writer (post (set_tensorboard name folder suffix s)) =
       Some (folder +:+ "/" +:+ name +:+ "_" +:+ str_of suffix)) /\
  (forall (n_epochs seed : Z) (s : State),
     writer s = None ->
     writer_calls (evs (train n_epochs seed s)) = []) /\
  (forall (n_epochs seed : Z) (s : State) (w : string),
     writer s = Some w ->
     res (train n_epochs seed s) = Ok () ->
     let o := train n_epochs seed s in
     exists ls vs,
       length ls = Z.to_nat n_epochs /\ length vs = Z.to_nat n_epochs /\
       losses (post o) = losses s ++ ls /\
       val_losses (post o) = val_losses s ++ vs /\
       writer_calls (evs o) =
         epochs_log (Some w) (range n_epochs) ls vs ++ [EvWriterClose w]) /\
  (forall l v : option float,
     epoch_scalars l v !! "training" = Some l /\
     epoch_scalars l v !! "validation" =
       match v with Some _ => Some v | None => None end).
Proof.
  split; [|split; [|split; [|split]]].
  - intros s. unfold __init__, model_to. run.
    destruct (module_to default_device); run; [discriminate|reflexivity].
  - intros name folder suffix s. unfold set_tensorboard, SummaryWriter. run.
    destruct (writer_open _); run; [discriminate|reflexivity].
  - intros n seed s Hw. rewrite train_run.
    destruct (set_seed seed s) as [[[]|e] s0 t0] eqn:Hseed;
      apply set_seed_inv in Hseed;
      destruct Hseed as [(_ & _ & _ & W0 & _) C0]; [|exact C0].
    destruct (for_each_no_writer (range n) s0) as [H1 H2]; [congruence|].
    destruct (for_each _ _ s0) as [[[]|e] s1 t1]; simpl in *.
    + rewrite !writer_calls_app, C0, H2, H1. reflexivity.
    + now rewrite !writer_calls_app, C0, H2.
  - intros n seed s w Hw Hok. cbv zeta. rewrite train_run in *.
    destruct (set_seed seed s) as [[[]|e] s0 t0] eqn:Hseed; [|discriminate].
    apply set_seed_inv in Hseed.
    destruct Hseed as [(L & V & _ & W0 & _) C0].
    destruct (for_each _ _ s0) as [[[]|e] s1 t1] eqn:Hloop; [|discriminate].
    destruct (for_each_runs_epochs _ _ _ _ Hloop) as (ls & vs & Hrun).
    destruct (runs_epochs_facts _ _ _ _ _ _ Hrun)
      as (F1 & F2 & F3 & F4 & _ & F6 & _ & _ & _ & F10).
    rewrite length_range in *. exists ls, vs. simpl.
    repeat split; try assumption; try congruence.
    rewrite !writer_calls_app, C0, F10, F6, W0, Hw. reflexivity.
  - intros l v. split;
      [apply epoch_scalars_training | apply epoch_scalars_validation].
Qed.


(** ** Missing loaders *)

Lemma mini_batch_events validation s r s1 t1 :
  _mini_batch validation s = Out r s1 t1 ->
  Forall omits_validation t1.
Proof.
  intros H.
  destruct (mini_batch_bookkeeping s validation s (same_bookkeeping_refl s))
    as [_ H2].
  rewrite H in H2. simpl in H2.
  eapply Forall_impl; [exact H2|].
  intros ev Hev. now destruct ev.
Qed.

Lemma set_seed_events seed s r s0 t0 :
  set_seed seed s = Out r s0 t0 -> Forall omits_validation t0.
Proof.
  intros H.
  destruct (set_seed_bookkeeping s seed s (same_bookkeeping_refl s)) as [_ H2].
  rewrite H in H2. simpl in H2.
  eapply Forall_impl; [exact H2|].
  intros ev Hev. now destruct ev.
Qed.

Lemma runs_epochs_no_val epochs s ls vs t s' :
  runs_epochs epochs s ls vs t s' ->
  val_loader s = None ->
  vs = replicate (length epochs) None /\ Forall omits_validation t.
Proof.
  induction 1 as [s|epoch epochs s l s1 t1 v s2 t2 ls vs t s' H1 H2 Hrun IH];
    intros Hv.
  - now split.
  - pose proof (mini_batch_events _ _ _ _ _ H1) as E1.
    apply mini_batch_ok_bookkeeping in H1.
    destruct H1 as [(_ & _ & _ & _ & _ & VL1 & _) _]. simpl in VL1.
    rewrite mini_batch_none in H2 by (simpl; congruence).
    injection H2 as <- <- <-.
    destruct IH as [IH1 IH2]; [simpl; congruence|].
    split; [simpl; now rewrite IH1|].
    apply Forall_app. split; [exact E1|].
    constructor; [exact I|]. simpl. constructor; [exact I|].
    apply Forall_app. split; [|exact IH2].
    unfold epoch_log. destruct (writer _); constructor; [|constructor].
    simpl. apply lookup_singleton_ne. discriminate.
Qed.

Lemma runs_epochs_no_train epochs s ls vs t s' :
  runs_epochs epochs s ls vs t s' ->
  train_loader s = None ->
  ls = replicate (length epochs) None.
Proof.
  induction 1 as [s|epoch epochs s l s1 t1 v s2 t2 ls vs t s' H1 H2 Hrun IH];
    intros Ht.
  - reflexivity.
  - rewrite mini_batch_none in H1 by (simpl; congruence).
    injection H1 as <- <- <-.
    apply mini_batch_ok_bookkeeping in H2.
    destruct H2 as [(_ & _ & _ & _ & TL2 & _) _]. simpl in TL2.
    simpl. rewrite IH; [reflexivity|]. simpl. congruence.
Qed.

Lemma for_each_no_loaders epochs s :
  train_loader s = None -> val_loader s = None ->
  writer s = None \/ add_scalars_check (epoch_scalars None None) = None ->
  res (for_each epochs train_epoch s) = Ok ().
Proof.
  revert s. induction epochs as [|epoch epochs IH]; intros s Ht Hv Hw; simpl.
  - reflexivity.
  - unfold bind. rewrite train_epoch_run.
    rewrite mini_batch_none by exact Ht.
    rewrite mini_batch_none by exact Hv.
    cbv zeta. simpl writer.
    assert (forall tw,
      res match for_each epochs train_epoch
                  (set_grad_enabled (grad_enabled s)
                     (set_val_losses (val_losses s ++ [None])
                        (set_grad_enabled false
                           (set_losses (losses s ++ [None])
                              (set_total_epochs (total_epochs s + 1) s)))))
          with
          | Out r s2 t2 => Out r s2 (tw ++ t2)
          end = Ok ()) as Hgo.
    { intros tw.
      match goal with
      | |- context [for_each epochs train_epoch ?s'] =>
          specialize (IH s' Ht Hv Hw);
          now destruct (for_each epochs train_epoch s')
      end. }
    destruct (writer s) as [w|]; [|apply Hgo].
    destruct Hw as [Hw|Hw]; [discriminate|]. rewrite Hw. apply Hgo.
Qed.

(** C8.  [_mini_batch] returns [None] when the selected loader is [None]: it
    raises nothing and neither the state nor the library is touched.  So a
    [train] that returns has appended [None] to [val_losses] in every epoch
    and logged no ['validation'] scalar when no validation loader is set, and
    has appended [None] to [losses] in every epoch when no training loader is
    set.  A missing loader is never what makes [train] fail: with neither
    loader set, [train] returns whenever the seeding does and either no
    writer is set or the writer takes the scalars of an epoch without a
    training loss. *)
Theorem missing_loader :
  (forall (validation : bool) (s : State),
     (if validation then val_loader s else train_loader s) = None ->
     _mini_batch validation s = Out (Ok None) s []) /\
  (forall (n_epochs seed : Z) (s : State),
     val_loader s = None ->
     res (train n_epochs seed s) = Ok () ->
     let o := train n_epochs seed s in
     val_losses (post o) = val_losses s ++ replicate (Z.to_nat n_epochs) None /\
     Forall omits_validation (evs o)) /\
  (forall (n_epochs seed : Z) (s : State),
     train_loader s = None ->
     res (train n_epochs seed s) = Ok () ->
     let o := train n_epochs seed s in
     losses (post o) = losses s ++ replicate (Z.to_nat n_epochs) None) /\
  (forall (n_epochs seed : Z) (s : State),
     train_loader s = None ->
     val_loader s = None ->
     writer s = None \/ add_scalars_check (epoch_scalars None None) = None ->
     res (set_seed seed s) = Ok () ->
     res (train n_epochs seed s) = Ok ()).
Proof.
  split; [exact mini_batch_none|split; [|split]].
  - intros n seed s Hv Hok. cbv zeta. rewrite train_run in *.
    destruct (set_seed seed s) as [[[]|e] s0 t0] eqn:Hseed; [|discriminate].
    pose proof (set_seed_events _ _ _ _ _ Hseed) as E0.
    apply set_seed_inv in Hseed.
    destruct Hseed as [(_ & V & _ & _ & _ & VL & _) _].
    destruct (for_each _ _ s0) as [[[]|e] s1 t1] eqn:Hloop; [|discriminate].
    destruct (for_each_runs_epochs _ _ _ _ Hloop) as (ls & vs & Hrun).
    destruct (runs_epochs_facts _ _ _ _ _ _ Hrun) as (_ & _ & _ & F4 & _).
    destruct (runs_epochs_no_val _ _ _ _ _ _ Hrun) as [-> E1]; [congruence|].
    rewrite length_range in *. simpl. split; [congruence|].
    apply Forall_app. split; [exact E0|]. apply Forall_app. split; [exact E1|].
    destruct (writer s1); now repeat constructor.
  - intros n seed s Ht Hok. cbv zeta. rewrite train_run in *.
    destruct (set_seed seed s) as [[[]|e] s0 t0] eqn:Hseed; [|discriminate].
    apply set_seed_inv in Hseed.
    destruct Hseed as [(L & _ & _ & _ & TL & _) _].
    destruct (for_each _ _ s0) as [[[]|e] s1 t1] eqn:Hloop; [|discriminate].
    destruct (for_each_runs_epochs _ _ _ _ Hloop) as (ls & vs & Hrun).
    destruct (runs_epochs_facts _ _ _ _ _ _ Hrun) as (_ & _ & F3 & _).
    rewrite (runs_epochs_no_train _ _ _ _ _ _ Hrun) in F3 by congruence.
    rewrite length_range in *. simpl. congruence.
  - intros n seed s Ht Hv Hw Hseed. rewrite train_run.
    destruct (set_seed seed s) as [[[]|e] s0 t0] eqn:Hs; [|discriminate].
    apply set_seed_inv in Hs.
    destruct Hs as [(_ & _ & _ & W & TL & VL & _) _].
    pose proof (for_each_no_loaders (range n) s0) as Hloop.
    destruct (for_each _ _ s0) as [[[]|e] s1 t1]; [reflexivity|].
    simpl in Hloop. apply Hloop; [congruence | congruence |].
    rewrite W. exact Hw.
Qed.


(** ** Checkpoints *)

Lemma save_checkpoint_run (filename : string) (s : State) :
  save_checkpoint filename s =
  match file_writable filename with
  | None =>
      Out (Ok ()) (set_files (<[filename := checkpoint_of s]> (files s)) s)
        [EvStateDict; EvOptimizerStateDict; EvTorchSave filename (checkpoint_of s)]
  | Some e =>
      Out (Raise e) s
        [EvStateDict; EvOptimizerStateDict; EvTorchSave filename (checkpoint_of s);
         EvRaise e]
  end.
Proof.
  unfold save_checkpoint, state_dict, optimizer_state_dict, torch_save. run.
  fold (checkpoint_of s).
  destruct (file_writable filename); reflexivity.
Qed.

Lemma load_checkpoint_run (filename : string) (s : State) :
  load_checkpoint filename s =
  match files s !! filename with
  | None =>
      Out (Raise (Exception "FileNotFoundError")) s
        [EvTorchLoad filename; EvRaise (Exception "FileNotFoundError")]
  | Some c =>
      if module_accepts (model_params s) (ck_model_state_dict c) then
        if optimizer_accepts (optimizer_state s) (ck_optimizer_state_dict c) then
          Out (Ok ())
            (set_model_training true
               (set_val_losses (ck_val_loss c)
                  (set_losses (ck_loss c)
                     (set_total_epochs (ck_epoch c)
                        (set_optimizer_state (ck_optimizer_state_dict c)
                           (set_model_params (ck_model_state_dict c) s))))))
            [EvTorchLoad filename; EvLoadStateDict (ck_model_state_dict c);
             EvOptimizerLoadStateDict (ck_optimizer_state_dict c); EvModuleTrain]
        else
          Out (Raise (Exception "ValueError"))
            (set_model_params (ck_model_state_dict c) s)
            [EvTorchLoad filename; EvLoadStateDict (ck_model_state_dict c);
             EvOptimizerLoadStateDict (ck_optimizer_state_dict c);
             EvRaise (Exception "ValueError")]
      else
        Out (Raise RuntimeError)
          (set_model_params
             (module_partial_load (model_params s) (ck_model_state_dict c)) s)
          [EvTorchLoad filename; EvLoadStateDict (ck_model_state_dict c);
           EvRaise RuntimeError]
  end.
Proof.
  unfold load_checkpoint, torch_load, load_state_dict,
    optimizer_load_state_dict, model_train.
  run.
  destruct (files s !! filename) as [c|]; run; [|reflexivity].
  destruct (module_accepts _ _); run; [|reflexivity].
  destruct (optimizer_accepts _ _); run; reflexivity.
Qed.

(** C1.  A checkpoint round-trips.  After [save_checkpoint(filename)] has
    returned, [load_checkpoint(filename)] on any instance whose model and
    optimizer accept the saved state dicts (the saving instance itself, later
    on, or one of the same structure) returns and leaves [total_epochs],
    [losses], [val_losses], the model's state dict and the optimizer's state
    dict at the values they had when the checkpoint was saved, as long as
    the file is still the one that was written. *)
Theorem checkpoint_round_trip (filename : string) (s s2 : State) :
  res (save_checkpoint filename s) = Ok () ->
  files s2 !! filename = files (post (save_checkpoint filename s)) !! filename ->
  module_accepts (model_params s2) (model_params s) = true ->
  optimizer_accepts (optimizer_state s2) (optimizer_state s) = true ->
  let o := load_checkpoint filename s2 in
  res o = Ok () /\
  total_epochs (post o) = total_epochs s /\
  losses (post o) = losses s /\
  val_losses (post o) = val_losses s /\
  res (state_dict (post o)) = Ok (model_params s) /\
  res (optimizer_state_dict (post o)) = Ok (optimizer_state s).
Proof.
  intros Hsave Hfile Hm Ho. cbv zeta.
  rewrite save_checkpoint_run in Hsave, Hfile.
  destruct (file_writable filename); [discriminate|].
  simpl in Hfile. rewrite lookup_insert_eq in Hfile.
  rewrite load_checkpoint_run, Hfile. simpl.
  rewrite Hm, Ho. now repeat split.
Qed.

(** ** The two loss histories *)

Lemma holds_try_except I E (body handler : M unit) :
  holds I E body -> holds I E handler ->
  holds I E (try_except_RuntimeError body handler).
Proof.
  intros Hb Hh s Hs. unfold try_except_RuntimeError.
  destruct (Hb s Hs) as [HI HE].
  destruct (body s) as [[[]|[|name]] s1 t1]; simpl in *; try now split.
  destruct (Hh s1 HI) as [HI' HE']. destruct (handler s1) as [r s2 t2].
  simpl in *. split; [exact HI'|]. apply Forall_app. now split.
Qed.

Lemma train_epoch_lockstep epoch s :
  histories_agree s ->
  let o := train_epoch epoch s in
  files_lockstep (post o) /\
  match res o with
  | Ok _ => lockstep (post o)
  | Raise _ =>
      lockstep (post o) \/
      length (losses (post o)) = S (length (val_losses (post o)))
  end.
Proof.
  intros [HL HF]. cbv zeta. rewrite train_epoch_run. unfold lockstep in *.
  destruct (_mini_batch false _) as [[l|e] s1 t1] eqn:H1;
    apply mini_batch_ok_bookkeeping in H1;
    destruct H1 as [(L1 & V1 & _ & _ & _ & _ & F1 & _) _]; simpl in *.
  2: { split; [unfold files_lockstep; now rewrite F1|]. left. congruence. }
  destruct (_mini_batch true _) as [[v|e] s2 t2] eqn:H2;
    apply mini_batch_ok_bookkeeping in H2;
    destruct H2 as [(L2 & V2 & _ & _ & _ & _ & F2 & _) _]; simpl in *.
  - assert (files_lockstep s2) as HF2
      by (unfold files_lockstep; now rewrite F2, F1).
    assert (length (losses s2) = length (val_losses s2 ++ [v])) as HL2.
    { rewrite L2, V2, V1, !length_app, L1. simpl. lia. }
    destruct (writer s2); [destruct (add_scalars_check _)|]; simpl;
      (split; [exact HF2|]); auto.
  - split; [unfold files_lockstep; simpl; now rewrite F2, F1|].
    right. simpl. rewrite L2, V2, V1, length_app, L1. simpl. lia.
Qed.

Lemma for_each_lockstep epochs s :
  histories_agree s ->
  let o := for_each epochs train_epoch s in
  files_lockstep (post o) /\
  match res o with
  | Ok _ => lockstep (post o)
  | Raise _ =>
      lockstep (post o) \/
      length (losses (post o)) = S (length (val_losses (post o)))
  end.
Proof.
  revert s. induction epochs as [|epoch epochs IH]; intros s Hs; simpl.
  - destruct Hs. now split.
  - unfold bind. destruct (train_epoch_lockstep epoch s Hs) as [H1 H2].
    destruct (train_epoch epoch s) as [[[]|e] s1 t1]; simpl in *; [|now split].
    specialize (IH s1 (conj H2 H1)). simpl in IH.
    now destruct (for_each epochs train_epoch s1) as [r s2 t2].
Qed.

Lemma op_lockstep (o : op) (s : State) :
  histories_agree s ->
  files_lockstep (post (run_op o s)) /\
  match res (run_op o s), o with
  | Raise _, OpTrain _ _ =>
      lockstep (post (run_op o s)) \/
      length (losses (post (run_op o s))) =
        S (length (val_losses (post (run_op o s))))
  | _, _ => lockstep (post (run_op o s))
  end.
Proof.
  intros Hs.
  assert (forall m : M unit,
            holds histories_agree (fun _ => True) m ->
            files_lockstep (post (m s)) /\ lockstep (post (m s))) as Hholds.
  { intros m Hm. destruct (Hm s Hs) as [[H1 H2] _]. now split. }
  assert (forall (r : result ()) (P : Prop),
            P -> match r with Ok _ => P | Raise _ => P end) as Hany
    by (now intros []).
  destruct o; simpl run_op.
  1-4, 8-10:
    match goal with
    | |- _ /\ match res (?m ?s') with _ => _ end =>
        destruct (Hholds m) as [H1 H2];
        [| split; [exact H1 | now apply Hany] ]
    end.
  - unfold to, model_to, print. apply holds_try_except.
    all: hold; try exact I; try (intros; exact I).
    all: intros H; exact H.
  - unfold set_loaders. hold; try exact I. all: intros H; exact H.
  - unfold set_tensorboard, SummaryWriter.
    hold; try exact I; try (intros; exact I). all: intros H; exact H.
  - unfold set_seed.
    hold; try exact I; try (intros; exact I). all: intros H; exact H.
  - unfold predict, model_eval, model_train, tensor_to_device, model_call.
    hold; try exact I; try (intros; exact I). all: intros H; exact H.
  - unfold plot_losses. hold; try exact I; try (intros; exact I).
  - unfold add_graph, iterate, tensor_to_device, writer_add_graph.
    hold; try exact I; try (intros; exact I). all: intros H; exact H.
  - (* train *)
    rewrite train_run.
    destruct (set_seed seed s) as [[[]|e] s0 t0] eqn:Hseed;
      apply set_seed_inv in Hseed;
      destruct Hseed as [(L & V & _ & _ & _ & _ & F & _) _];
      assert (histories_agree s0) as [HL0 HF0]
        by (destruct Hs; unfold histories_agree, lockstep, files_lockstep;
            rewrite L, V, F; now split).
    + pose proof (for_each_lockstep (range n_epochs) s0 (conj HL0 HF0)) as Hloop.
      simpl in Hloop.
      destruct (for_each _ _ s0) as [[[]|e] s1 t1]; exact Hloop.
    + simpl. split; [exact HF0 | now left].
  - (* save_checkpoint *)
    rewrite save_checkpoint_run. destruct Hs as [HL HF].
    destruct (file_writable filename); simpl; [now split|].
    split; [|exact HL].
    intros f c. unfold files_lockstep in *. simpl.
    destruct (decide (filename = f)) as [->|Hne].
    + rewrite lookup_insert_eq. intros [= <-]. exact HL.
    + rewrite lookup_insert_ne by exact Hne. apply HF.
  - (* load_checkpoint *)
    rewrite load_checkpoint_run. destruct Hs as [HL HF].
    destruct (files s !! filename) as [c|] eqn:Hc; simpl; [|now split].
    destruct (module_accepts _ _); simpl; [|now split].
    destruct (optimizer_accepts _ _); simpl; [|now split].
    split; [exact HF|]. unfold lockstep. simpl. now apply (HF filename).
Qed.


(** C10.  The two loss histories grow in lockstep.  [__init__] starts them
    both empty.  Every public operation that returns keeps
    [len(losses) == len(val_losses)], on the instance and in the checkpoints
    on disk, provided the checkpoints on disk had two histories of equal
    length to begin with (as the ones [save_checkpoint] writes have).  When
    an operation raises the histories still agree, except that a [train]
    cut short inside a validation pass leaves [losses] one element longer.
    Only [train] and [load_checkpoint] ever change either list. *)
Theorem loss_histories_lockstep :
  (forall s : State,
     res (__init__ s) = Ok () ->
     losses (post (__init__ s)) = [] /\ val_losses (post (__init__ s)) = []) /\
  (forall (o : op) (s : State),
     lockstep s -> files_lockstep s ->
     res (run_op o s) = Ok () ->
     lockstep (post (run_op o s)) /\ files_lockstep (post (run_op o s))) /\
  (forall (o : op) (s : State) (e : exn),
     lockstep s -> files_lockstep s ->
     res (run_op o s) = Raise e ->
     files_lockstep (post (run_op o s)) /\
     (lockstep (post (run_op o s)) \/
      (exists n_epochs seed, o = OpTrain n_epochs seed) /\
      length (losses (post (run_op o s))) =
        S (length (val_losses (post (run_op o s)))))) /\
  (forall (o : op) (s : State),
     match o with
     | OpTrain _ _ | OpLoadCheckpoint _ => True
     | _ =>
         losses (post (run_op o s)) = losses s /\
         val_losses (post (run_op o s)) = val_losses s
     end).
Proof.
  split; [|split; [|split]].
  - intros s. unfold __init__, model_to. run.
    destruct (module_to default_device); run; [discriminate|now split].
  - intros o s HL HF Hok.
    destruct (op_lockstep o s (conj HL HF)) as [H1 H2].
    rewrite Hok in H2. now split.
  - intros o s e HL HF Hraise.
    destruct (op_lockstep o s (conj HL HF)) as [H1 H2].
    rewrite Hraise in H2. split; [exact H1|].
    destruct o; try (now left).
    destruct H2 as [H2|H2]; [now left|right]. split; [|exact H2]. eauto.
  - intros o s.
    assert (forall m : M unit,
              holds (fun s' => losses s' = losses s /\ val_losses s' = val_losses s)
                (fun _ => True) m ->
              losses (post (m s)) = losses s /\
              val_losses (post (m s)) = val_losses s) as Hholds.
    { intros m Hm. now destruct (Hm s (conj eq_refl eq_refl)) as [H _]. }
    destruct o; simpl run_op; try exact I; apply Hholds.
    + unfold to, model_to, print. apply holds_try_except.
      all: hold; try exact I; try (intros; exact I).
      all: intros H; exact H.
    + unfold set_loaders. hold; try exact I. all: intros H; exact H.
    + unfold set_tensorboard, SummaryWriter.
      hold; try exact I; try (intros; exact I). all: intros H; exact H.
    + unfold set_seed.
      hold; try exact I; try (intros; exact I). all: intros H; exact H.
    + unfold save_checkpoint, state_dict, optimizer_state_dict, torch_save.
      hold; try exact I; try (intros; exact I). all: intros H; exact H.
    + unfold predict, model_eval, model_train, tensor_to_device, model_call.
      hold; try exact I; try (intros; exact I). all: intros H; exact H.
    + unfold plot_losses. hold; try exact I; try (intros; exact I).
    + unfold add_graph, iterate, tensor_to_device, writer_add_graph.
      hold; try exact I; try (intros; exact I). all: intros H; exact H.
Qed.

(** * Further properties of the class *)

(** ** Seeding and the epoch loop, further *)

Lemma set_seed_run (seed : Z) (s : State) :
  set_seed seed s =
  match manual_seed seed with
  | Raise e =>
      Out (Raise e) s [EvCudnnFlags true false; EvManualSeed seed; EvRaise e]
  | Ok g =>
      match np_random_seed seed with
      | None =>
          Out (Ok ()) (set_rng g s)
            [EvCudnnFlags true false; EvManualSeed seed; EvNpRandomSeed seed]
      | Some e =>
          Out (Raise e) (set_rng g s)
            [EvCudnnFlags true false; EvManualSeed seed; EvNpRandomSeed seed;
             EvRaise e]
      end
  end.
Proof.
  unfold set_seed. run.
  destruct (manual_seed seed) as [g|e]; run; [|reflexivity].
  destruct (np_random_seed seed); reflexivity.
Qed.

(** [train] starts by reseeding, so the generator state it is called in
    does not matter. *)
Lemma train_forgets_rng (n_epochs seed : Z) (s : State) (g g0 : generator) :
  manual_seed seed = Ok g0 ->
  train n_epochs seed (set_rng g s) = train n_epochs seed s.
Proof.
  intros Hseed. rewrite !train_run, !set_seed_run, Hseed.
  destruct (np_random_seed seed); reflexivity.
Qed.

(** X1.  Training is reproducible: since [train] reseeds before its first
    epoch, its result, its library calls and (when [torch.manual_seed]
    accepts the seed) the state it ends in do not depend on the state of the
    random generator it is called in. *)
Theorem train_reproducible (n_epochs seed : Z) (s : State) (g : generator) :
  let o := train n_epochs seed s in
  let o' := train n_epochs seed (set_rng g s) in
  res o' = res o /\ evs o' = evs o /\
  match manual_seed seed with
  | Ok _ => post o' = post o
  | Raise _ => post o' = set_rng g s /\ post o = s
  end.
Proof.
  cbv zeta. destruct (manual_seed seed) as [g0|e] eqn:Hseed.
  - now rewrite (train_forgets_rng _ _ _ _ _ Hseed).
  - rewrite !train_run, !set_seed_run, Hseed. now repeat split.
Qed.

(** X2.  [train] with [n_epochs <= 0] runs no epoch: histories, epoch count,
    parameters, gradients and optimizer state stay as they are.  It still
    reseeds, and when the seeding succeeds it returns and still closes the
    writer if one is set. *)
Theorem train_no_epochs (n_epochs seed : Z) (s : State) :
  n_epochs <= 0 ->
  let o := train n_epochs seed s in
  losses (post o) = losses s /\ val_losses (post o) = val_losses s /\
  total_epochs (post o) = total_epochs s /\
  same_parameters s (post o) /\
  res o = res (set_seed seed s) /\
  writer_calls (evs o) =
    match res o, writer s with
    | Ok _, Some w => [EvWriterClose w]
    | _, _ => []
    end.
Proof.
  intros Hn. cbv zeta. rewrite train_run.
  replace (range n_epochs) with (@nil Z)
    by (unfold range; now replace (Z.to_nat n_epochs) with 0%nat by lia).
  rewrite set_seed_run.
  destruct (manual_seed seed) as [g|e]; [|now repeat split].
  destruct (np_random_seed seed) as [e|]; [now repeat split|].
  simpl. destruct (writer s); now repeat split.
Qed.

Lemma train_epoch_setup s0 epoch :
  holds (same_setup s0) (fun _ => True) (train_epoch epoch).
Proof.
  unfold train_epoch, _mini_batch, iterate, tensor_to_device,
    perform_train_step_fn, perform_val_step_fn, model_train, model_eval,
    model_call, loss_fn, backward, optimizer_step, optimizer_zero_grad, item,
    add_scalars.
  repeat first
    [ apply holds_with_no_grad; [intros ? ? H; exact H | exact I | exact I |]
    | progress hold ];
    try exact I; try (intros; exact I).
  all: intros H; exact H.
Qed.

Lemma train_setup s0 n_epochs seed :
  holds (same_setup s0) (fun _ => True) (train n_epochs seed).
Proof.
  pose proof (train_epoch_setup s0) as He.
  unfold train, set_seed, writer_close.
  hold; try exact I; try (intros; exact I).
  all: intros H; exact H.
Qed.

Lemma with_no_grad_restores {A} (body : M A) b :
  holds (fun s => grad_enabled s = b) (fun _ => True) (with_no_grad body).
Proof.
  intros s Hs. unfold with_no_grad. destruct (body _) as [r s1 t1]. simpl.
  split; [exact Hs|]. apply Forall_forall. intros; exact I.
Qed.

Lemma train_grad_mode b n_epochs seed :
  holds (fun s => grad_enabled s = b) (fun _ => True) (train n_epochs seed).
Proof.
  unfold train, set_seed, writer_close, train_epoch, _mini_batch, iterate,
    tensor_to_device, perform_train_step_fn, perform_val_step_fn,
    model_train, model_eval, model_call, loss_fn, backward, optimizer_step,
    optimizer_zero_grad, item, add_scalars.
  repeat first [ apply with_no_grad_restores | progress hold ];
    try exact I; try (intros; exact I).
  all: intros H; exact H.
Qed.

(** X3.  Whatever happens, [train] leaves alone what it was set up with: the
    two loaders, the writer (it stays set after it was closed),
    [self.device], the device of the model, the files on disk, and torch's
    grad mode, which the validation pass switches off and puts back even
    when it raises. *)
Theorem train_frame (n_epochs seed : Z) (s : State) :
  let o := train n_epochs seed s in
  train_loader (post o) = train_loader s /\
  val_loader (post o) = val_loader s /\
  writer (post o) = writer s /\
  device (post o) = device s /\
  model_device (post o) = model_device s /\
  files (post o) = files s /\
  grad_enabled (post o) = grad_enabled s.
Proof.
  cbv zeta.
  destruct (train_setup s n_epochs seed s) as [(H1 & H2 & H3 & H4 & H5 & H6) _];
    [now repeat split|].
  destruct (train_grad_mode (grad_enabled s) n_epochs seed s eq_refl) as [H7 _].
  now repeat split.
Qed.

(** ** One pass, further *)

(** X4.  A loader that is set but yields no batch is not treated like a
    missing loader: [_mini_batch] returns [np.mean] of the empty list, not
    [None].  No tensor is moved and the model is not called; only the
    iteration of the loader is visible, in the random generator. *)
Theorem empty_loader (validation : bool) (s : State) (dl : DataLoader) :
  (if validation then val_loader s else train_loader s) = Some dl ->
  fst (dl_iter dl (rng s)) = [] ->
  _mini_batch validation s =
    Out (Ok (Some (np_mean []))) (set_rng (snd (dl_iter dl (rng s))) s) [].
Proof.
  intros Hdl Hempty. rewrite (mini_batch_some _ _ _ Hdl), Hempty. reflexivity.
Qed.

Lemma holds_bind_gets {A B} I E (f : State -> A) (k : A -> M B) :
  (forall s0, I s0 -> holds I E (k (f s0))) -> holds I E (bind (gets f) k).
Proof.
  intros H s Hs. specialize (H s Hs s Hs). unfold bind, gets.
  destruct (k (f s) s) as [r s2 t2]. exact H.
Qed.

Lemma train_sent_to d n_epochs seed :
  holds (fun s => device s = d) (sent_to d) (train n_epochs seed).
Proof.
  unfold train, set_seed, writer_close, train_epoch, _mini_batch, iterate,
    tensor_to_device, perform_train_step_fn, perform_val_step_fn,
    model_train, model_eval, model_call, loss_fn, backward, optimizer_step,
    optimizer_zero_grad, item, add_scalars.
  repeat first
    [ apply holds_bind_gets; (let H := fresh in intros ? H; try rewrite H); cbv beta
    | apply holds_with_no_grad; [intros ? ? H; exact H | exact I | exact I |]
    | hold_step ];
    try exact I; try reflexivity; try (intros; exact I).
  all: (let H := fresh in intros H; exact H).
Qed.

Lemma mini_batch_sent_to d validation :
  holds (fun s => device s = d) (sent_to d) (_mini_batch validation).
Proof.
  unfold _mini_batch, iterate,
    tensor_to_device, perform_train_step_fn, perform_val_step_fn,
    model_train, model_eval, model_call, loss_fn, backward, optimizer_step,
    optimizer_zero_grad, item.
  destruct validation;
  repeat first
    [ apply holds_bind_gets; (let H := fresh in intros ? H; try rewrite H); cbv beta
    | hold_step ];
    try exact I; try reflexivity; try (intros; exact I).
  all: (let H := fresh in intros H; exact H).
Qed.

(** X5.  Every batch goes to [self.device]: each tensor a pass, or a whole
    [train], moves is moved to the device the instance holds when the call
    starts, whether the call returns or raises. *)
Theorem batches_sent_to_device :
  (forall (validation : bool) (s : State),
     Forall (sent_to (device s)) (evs (_mini_batch validation s))) /\
  (forall (n_epochs seed : Z) (s : State),
     Forall (sent_to (device s)) (evs (train n_epochs seed s))).
Proof.
  split.
  - intros validation s.
    now destruct (mini_batch_sent_to (device s) validation s eq_refl).
  - intros n seed s.
    now destruct (train_sent_to (device s) n seed s eq_refl).
Qed.

Lemma train_step_run (x y : tensor) (s : State) :
  perform_train_step_fn x y s =
  let s0 := set_model_training true s in
  match module_call (model_params s) true (grad_enabled s) x with
  | Raise e => Out (Raise e) s0 [EvModuleTrain; EvModuleCall x; EvRaise e]
  | Ok yhat =>
    match loss_call yhat y with
    | Raise e =>
        Out (Raise e) s0
          [EvModuleTrain; EvModuleCall x; EvLossCall yhat y; EvRaise e]
    | Ok loss =>
      match tensor_backward loss with
      | Raise e =>
          Out (Raise e) s0
            [EvModuleTrain; EvModuleCall x; EvLossCall yhat y;
             EvBackward loss; EvRaise e]
      | Ok g =>
        let g' := Some (grad_accumulate (model_grads s) g) in
        match optimizer_update (optimizer_state s) (model_params s) g' with
        | Raise e =>
            Out (Raise e) (set_model_grads g' s0)
              [EvModuleTrain; EvModuleCall x; EvLossCall yhat y;
               EvBackward loss; EvOptimizerStep; EvRaise e]
        | Ok op =>
            Out (Ok (tensor_item loss))
              (set_model_grads None
                 (set_optimizer_state (fst op)
                    (set_model_params (snd op) (set_model_grads g' s0))))
              [EvModuleTrain; EvModuleCall x; EvLossCall yhat y;
               EvBackward loss; EvOptimizerStep; EvOptimizerZeroGrad;
               EvItem loss]
        end
      end
    end
  end.
Proof.
  unfold perform_train_step_fn, model_train, model_call, loss_fn, backward,
    optimizer_step, optimizer_zero_grad, item.
  run.
  destruct (module_call _ _ _ x) as [yhat|e]; run; [|reflexivity].
  destruct (loss_call yhat y) as [loss|e]; run; [|reflexivity].
  destruct (tensor_backward loss) as [g|e]; run; [|reflexivity].
  destruct (optimizer_update _ _ _) as [op|e]; run; reflexivity.
Qed.

Lemma batch_step_run step_fn (b : tensor * tensor) (s : State) :
  batch_step step_fn b s =
  match tensor_to (device s) (fst b) with
  | Raise e => Out (Raise e) s [EvTensorTo (device s) (fst b); EvRaise e]
  | Ok x =>
    match tensor_to (device s) (snd b) with
    | Raise e =>
        Out (Raise e) s
          [EvTensorTo (device s) (fst b); EvTensorTo (device s) (snd b);
           EvRaise e]
    | Ok y =>
      match step_fn x y s with
      | Out r s' t =>
          Out r s'
            (EvTensorTo (device s) (fst b) :: EvTensorTo (device s) (snd b) :: t)
      end
    end
  end.
Proof.
  unfold batch_step, tensor_to_device. run.
  destruct (tensor_to _ (fst b)) as [x|e]; run; [|reflexivity].
  destruct (tensor_to _ (snd b)) as [y|e]; run; [|reflexivity].
  now destruct (step_fn x y s).
Qed.

(** The number of calls of one kind in a trace. *)
Lemma count_app (f : event -> bool) t1 t2 :
  length (List.filter f (t1 ++ t2)) =
  (length (List.filter f t1) + length (List.filter f t2))%nat.
Proof. now rewrite List.filter_app, length_app. Qed.

Lemma train_batch_counts (b : tensor * tensor) (s : State) l :
  res (batch_step perform_train_step_fn b s) = Ok l ->
  let o := batch_step perform_train_step_fn b s in
  length (List.filter is_forward (evs o)) = 1%nat /\
  length (List.filter is_backward (evs o)) = 1%nat /\
  length (List.filter is_optimizer_step (evs o)) = 1%nat /\
  model_grads (post o) = None.
Proof.
  cbv zeta. rewrite batch_step_run.
  destruct (tensor_to _ (fst b)) as [x|e]; [|discriminate].
  destruct (tensor_to _ (snd b)) as [y|e]; [|discriminate].
  rewrite train_step_run. cbv zeta.
  destruct (module_call _ _ _ x) as [yhat|e]; [|discriminate].
  destruct (loss_call yhat y) as [loss|e]; [|discriminate].
  destruct (tensor_backward loss) as [g|e]; [|discriminate].
  destruct (optimizer_update _ _ _) as [op|e]; [|discriminate].
  intros _. now repeat split.
Qed.

Lemma train_pass_counts batches : forall acc s ls,
  res (pass_loop perform_train_step_fn batches acc s) = Ok ls ->
  let o := pass_loop perform_train_step_fn batches acc s in
  length (List.filter is_forward (evs o)) = length batches /\
  length (List.filter is_backward (evs o)) = length batches /\
  length (List.filter is_optimizer_step (evs o)) = length batches /\
  (model_grads s = None -> model_grads (post o) = None).
Proof.
  induction batches as [|b bs IH]; intros acc s ls; cbv zeta.
  - intros _. now repeat split.
  - change (pass_loop perform_train_step_fn (b :: bs) acc s) with
      (bind (bind (batch_step perform_train_step_fn b)
               (fun l => ret (acc ++ [l])))
            (fun acc' => pass_loop perform_train_step_fn bs acc') s).
    unfold bind.
    destruct (batch_step perform_train_step_fn b s) as [[l|e] s1 t1] eqn:Hb;
      simpl; [|discriminate].
    destruct (train_batch_counts b s l) as (C1 & C2 & C3 & G);
      [now rewrite Hb|].
    rewrite Hb in C1, C2, C3, G. simpl in C1, C2, C3, G.
    specialize (IH (acc ++ [l]) s1).
    destruct (pass_loop perform_train_step_fn bs (acc ++ [l]) s1)
      as [[ls'|e] s2 t2]; simpl; [|discriminate].
    intros _. destruct (IH ls' eq_refl) as (I1 & I2 & I3 & I4). simpl in *.
    rewrite app_nil_r, !count_app, C1, C2, C3, I1, I2, I3.
    repeat split; try reflexivity. intros _. now apply I4.
Qed.

(** X6.  One optimizer step per mini-batch: a training pass that returns
    has made exactly one forward pass, one [backward] and one
    [optimizer.step()] for each batch its loader yielded. *)
Theorem one_step_per_batch (s : State) (dl : DataLoader) (r : option float) :
  train_loader s = Some dl ->
  res (_mini_batch false s) = Ok r ->
  let t := evs (_mini_batch false s) in
  let n := length (fst (dl_iter dl (rng s))) in
  length (List.filter is_forward t) = n /\
  length (List.filter is_backward t) = n /\
  length (List.filter is_optimizer_step t) = n.
Proof.
  intros Hdl Hr. cbv zeta.
  rewrite (mini_batch_some false s dl Hdl) in *.
  pose proof (train_pass_counts (fst (dl_iter dl (rng s))) []
                (set_rng (snd (dl_iter dl (rng s))) s)) as Hc.
  destruct (pass_loop _ _ _ _) as [[ls|e] s' t]; [|discriminate].
  destruct (Hc ls eq_refl) as (C1 & C2 & C3 & _). now repeat split.
Qed.

(** ** What the recorded training loss is *)

Lemma mini_batch_value (s : State) (dl : DataLoader) l s1 t1 :
  train_loader s = Some dl ->
  _mini_batch false s = Out (Ok l) s1 t1 ->
  l = pass_mean dl s.
Proof.
  intros Hdl. rewrite (mini_batch_some false s dl Hdl).
  destruct (pass_loop _ _ _ _) as [[ls|e] s' t] eqn:Hp; [|discriminate].
  intros [= <- _ _].
  apply (f_equal res), pass_loop_losses in Hp. destruct Hp as [-> _].
  reflexivity.
Qed.

Lemma for_each_pass_means (dl : DataLoader) epochs : forall s,
  train_loader s = Some dl ->
  res (for_each epochs train_epoch s) = Ok () ->
  losses (post (for_each epochs train_epoch s)) =
    losses s ++ map (pass_mean dl) (pass_starts epochs s).
Proof.
  induction epochs as [|epoch epochs IH]; intros s Hdl; simpl.
  - intros _. now rewrite app_nil_r.
  - unfold bind.
    destruct (train_epoch_setup s epoch s) as [(TL & _) _];
      [now repeat split|].
    pose proof (train_epoch_run epoch s) as Hrun.
    destruct (train_epoch epoch s) as [[[]|e] s1 t1] eqn:He; [|discriminate].
    simpl in TL.
    assert (losses s1 =
            losses s ++ [pass_mean dl (set_total_epochs (total_epochs s + 1) s)])
      as HL.
    { destruct (_mini_batch false _) as [[l|e] s2 t2] eqn:H1; [|discriminate].
      pose proof (mini_batch_value (set_total_epochs (total_epochs s + 1) s)
                    dl l s2 t2 Hdl H1) as ->.
      apply mini_batch_ok_bookkeeping in H1. destruct H1 as [(L1 & _) _].
      destruct (_mini_batch true _) as [[v|e] s3 t3] eqn:H2; [|discriminate].
      apply mini_batch_ok_bookkeeping in H2. destruct H2 as [(L2 & _) _].
      simpl in L1, L2. cbv zeta in Hrun.
      destruct (writer s3); [destruct (add_scalars_check _)|];
        try discriminate; injection Hrun as -> _; simpl;
        now rewrite L2, L1. }
    specialize (IH s1). simpl.
    destruct (for_each epochs train_epoch s1) as [r s4 t4] eqn:Hf.
    simpl in *. intros ->.
    rewrite IH by congruence. rewrite HL, <- app_assoc. reflexivity.
Qed.

(** C7, amended.  The training loss [train] records for an epoch is
    [np.mean] of the step losses of that epoch's training pass, computed on
    the parameters the epochs before it left.  [train] does nothing else
    with these values: it compares none of them and enforces no decrease,
    so the recorded loss goes down exactly when the library's numbers do. *)
Theorem recorded_losses_are_pass_means (n_epochs seed : Z) (s : State)
    (dl : DataLoader) :
  train_loader s = Some dl ->
  res (train n_epochs seed s) = Ok () ->
  let o := train n_epochs seed s in
  losses (post o) =
    losses s ++
    map (pass_mean dl) (pass_starts (range n_epochs) (post (set_seed seed s))).
Proof.
  intros Hdl Hok. cbv zeta. rewrite train_run in *.
  destruct (set_seed seed s) as [[[]|e] s0 t0] eqn:Hseed; [|discriminate].
  apply set_seed_inv in Hseed. destruct Hseed as [(L & _ & _ & _ & TL & _) _].
  pose proof (for_each_pass_means dl (range n_epochs) s0) as Hloop.
  destruct (for_each _ _ s0) as [[[]|e] s1 t1]; [|discriminate].
  simpl in *. rewrite Hloop by congruence. now rewrite L.
Qed.

(** ** Gradients *)

Lemma mini_batch_clears_gradients (validation : bool) (s : State) r :
  model_grads s = None ->
  res (_mini_batch validation s) = Ok r ->
  model_grads (post (_mini_batch validation s)) = None.
Proof.
  intros Hg Hr. destruct validation.
  - destruct (val_pass_holds s s) as [(_ & G & _) _]; [now repeat split|].
    congruence.
  - destruct (train_loader s) as [dl|] eqn:Hdl.
    + rewrite (mini_batch_some false s dl Hdl) in *.
      pose proof (train_pass_counts (fst (dl_iter dl (rng s))) []
                    (set_rng (snd (dl_iter dl (rng s))) s)) as Hc.
      destruct (pass_loop _ _ _ _) as [[ls|e] s' t]; [|discriminate].
      destruct (Hc ls eq_refl) as (_ & _ & _ & G). simpl in *. now apply G.
    + now rewrite (mini_batch_none false s Hdl).
Qed.

Lemma train_epoch_clears_gradients epoch s :
  model_grads s = None ->
  res (train_epoch epoch s) = Ok () ->
  model_grads (post (train_epoch epoch s)) = None.
Proof.
  intros Hg. rewrite train_epoch_run.
  destruct (_mini_batch false _) as [[l|e] s1 t1] eqn:H1; [|discriminate].
  assert (model_grads s1 = None) as G1.
  { pose proof (mini_batch_clears_gradients false
                  (set_total_epochs (total_epochs s + 1) s) l Hg) as H.
    rewrite H1 in H. now apply H. }
  destruct (_mini_batch true _) as [[v|e] s2 t2] eqn:H2; [|discriminate].
  assert (model_grads s2 = None) as G2.
  { pose proof (mini_batch_clears_gradients true
                  (set_grad_enabled false (set_losses (losses s1 ++ [l]) s1))
                  v G1) as H.
    rewrite H2 in H. now apply H. }
  cbv zeta. destruct (writer s2); [destruct (add_scalars_check _)|];
    simpl; intros; try discriminate; exact G2.
Qed.

Lemma for_each_clears_gradients epochs : forall s,
  model_grads s = None ->
  res (for_each epochs train_epoch s) = Ok () ->
  model_grads (post (for_each epochs train_epoch s)) = None.
Proof.
  induction epochs as [|epoch epochs IH]; intros s Hg; simpl; [now intros|].
  unfold bind.
  pose proof (train_epoch_clears_gradients epoch s Hg) as H1.
  destruct (train_epoch epoch s) as [[[]|e] s1 t1]; simpl in *; [|discriminate].
  specialize (IH s1 (H1 eq_refl)).
  destruct (for_each epochs train_epoch s1) as [r s2 t2]. simpl in *.
  exact IH.
Qed.

(** X7.  Gradients do not leak from one call to the next: when the
    gradients are clear at the start, they are clear again after every pass
    and every [train] that returns, since each training step ends with
    [optimizer.zero_grad()] and validation computes none. *)
Theorem gradients_cleared :
  (forall (validation : bool) (s : State) (r : option float),
     model_grads s = None ->
     res (_mini_batch validation s) = Ok r ->
     model_grads (post (_mini_batch validation s)) = None) /\
  (forall (n_epochs seed : Z) (s : State),
     model_grads s = None ->
     res (train n_epochs seed s) = Ok () ->
     model_grads (post (train n_epochs seed s)) = None).
Proof.
  split; [exact mini_batch_clears_gradients|].
  intros n seed s Hg. rewrite train_run, set_seed_run.
  destruct (manual_seed seed) as [g|e]; [|discriminate].
  destruct (np_random_seed seed) as [e|]; [discriminate|].
  pose proof (for_each_clears_gradients (range n) (set_rng g s) Hg) as H.
  destruct (for_each _ _ _) as [[[]|e] s1 t1]; [|discriminate].
  simpl in *. intros _. now apply H.
Qed.

(** ** predict *)

Lemma predict_run (x : ndarray) (s : State) :
  predict x s =
  let s0 := set_model_training false s in
  match as_float_tensor x with
  | Raise e => Out (Raise e) s0 [EvModuleEval; EvAsTensor x; EvRaise e]
  | Ok xt =>
    match tensor_to (device s) xt with
    | Raise e =>
        Out (Raise e) s0
          [EvModuleEval; EvAsTensor x; EvTensorTo (device s) xt; EvRaise e]
    | Ok xd =>
      match module_call (model_params s) false (grad_enabled s) xd with
      | Raise e =>
          Out (Raise e) s0
            [EvModuleEval; EvAsTensor x; EvTensorTo (device s) xt;
             EvModuleCall xd; EvRaise e]
      | Ok yhat =>
          Out (Ok (to_numpy yhat)) (set_model_training true s0)
            [EvModuleEval; EvAsTensor x; EvTensorTo (device s) xt;
             EvModuleCall xd; EvModuleTrain; EvToNumpy yhat]
      end
    end
  end.
Proof.
  unfold predict, model_eval, model_train, tensor_to_device, model_call. run.
  destruct (as_float_tensor x) as [xt|e]; run; [|reflexivity].
  destruct (tensor_to _ xt) as [xd|e]; run; [|reflexivity].
  destruct (module_call _ _ _ xd) as [yhat|e]; run; reflexivity.
Qed.

(** X8.  [predict] runs the model in eval mode on the input sent to
    [self.device] and returns its output; it changes no parameter, gradient,
    optimizer state, history or epoch count.  When it returns, the model is
    in train mode, whatever mode it was in before; when the conversion, the
    move or the forward pass raises, the model is left in eval mode. *)
Theorem predict_mode (x : ndarray) (s : State) :
  let o := predict x s in
  same_parameters s (post o) /\
  losses (post o) = losses s /\ val_losses (post o) = val_losses s /\
  total_epochs (post o) = total_epochs s /\
  Forall (fun ev => is_update ev = false) (evs o) /\
  match res o with
  | Ok y =>
      model_training (post o) = true /\
      exists xt xd yhat,
        as_float_tensor x = Ok xt /\
        tensor_to (device s) xt = Ok xd /\
        module_call (model_params s) false (grad_enabled s) xd = Ok yhat /\
        y = to_numpy yhat
  | Raise _ => model_training (post o) = false
  end.
Proof.
  cbv zeta. rewrite predict_run. cbv zeta.
  destruct (as_float_tensor x) as [xt|e] eqn:H1;
    [|simpl; repeat split; repeat constructor].
  destruct (tensor_to _ xt) as [xd|e] eqn:H2;
    [|simpl; repeat split; repeat constructor].
  destruct (module_call _ _ _ xd) as [yhat|e] eqn:H3;
    [|simpl; repeat split; repeat constructor].
  simpl. split; [now repeat split|]. do 3 (split; [reflexivity|]).
  split; [repeat constructor|]. split; [reflexivity|].
  exists xt, xd, yhat. now repeat split.
Qed.

(** ** add_graph *)

Lemma add_graph_run (s : State) :
  add_graph s =
  match train_loader s, writer s with
  | Some dl, Some w =>
      if (0 <? dl_len dl)%nat then
        let s' := set_rng (snd (dl_iter dl (rng s))) s in
        match fst (dl_iter dl (rng s)) with
        | [] =>
            Out (Raise (Exception "StopIteration")) s'
              [EvRaise (Exception "StopIteration")]
        | b :: _ =>
            match tensor_to (device s) (fst b) with
            | Raise e =>
                Out (Raise e) s' [EvTensorTo (device s) (fst b); EvRaise e]
            | Ok x =>
                match add_graph_check x with
                | Some e =>
                    Out (Raise e) s'
                      [EvTensorTo (device s) (fst b); EvAddGraph w x; EvRaise e]
                | None =>
                    Out (Ok ()) s'
                      [EvTensorTo (device s) (fst b); EvAddGraph w x]
                end
            end
        end
      else Out (Ok ()) s []
  | _, _ => Out (Ok ()) s []
  end.
Proof.
  unfold add_graph, iterate, tensor_to_device, writer_add_graph. run.
  destruct (train_loader s) as [dl|]; [|reflexivity].
  destruct (writer s) as [w|]; [|reflexivity].
  destruct (0 <? dl_len dl)%nat; [|reflexivity]. run.
  destruct (fst (dl_iter dl (rng s))) as [|b bs]; run; [reflexivity|].
  destruct (tensor_to _ (fst b)) as [x|e]; run; [|reflexivity].
  destruct (add_graph_check x); reflexivity.
Qed.

Lemma set_rng_same (s : State) : set_rng (rng s) s = s.
Proof. now destruct s. Qed.

Lemma add_graph_rng (s : State) :
  exists g, post (add_graph s) = set_rng g s.
Proof.
  rewrite add_graph_run.
  destruct (train_loader s) as [dl|];
    [|exists (rng s); simpl; now rewrite set_rng_same].
  destruct (writer s) as [w|];
    [|exists (rng s); simpl; now rewrite set_rng_same].
  destruct (0 <? dl_len dl)%nat;
    [|exists (rng s); simpl; now rewrite set_rng_same].
  exists (snd (dl_iter dl (rng s))). cbv zeta.
  destruct (fst (dl_iter dl (rng s))) as [|b bs]; [reflexivity|].
  destruct (tensor_to _ (fst b)) as [x|e]; [|reflexivity].
  destruct (add_graph_check x); reflexivity.
Qed.

(** X9.  [add_graph] does nothing at all unless a writer is set and the
    training loader is set and not empty.  Otherwise it draws one pass from
    the loader and logs the graph for the inputs of its first batch.  All it
    ever changes on the instance is the random generator, and since [train]
    reseeds, calling [add_graph] first changes nothing about a training
    run. *)
Theorem add_graph_harmless :
  (forall s : State,
     writer s = None \/ train_loader s = None \/
     (exists dl, train_loader s = Some dl /\ dl_len dl = 0%nat) ->
     add_graph s = Out (Ok ()) s []) /\
  (forall (s : State) (dl : DataLoader) (w : string) (b : tensor * tensor)
          (bs : list (tensor * tensor)) (x : tensor),
     train_loader s = Some dl -> writer s = Some w ->
     (0 < dl_len dl)%nat ->
     fst (dl_iter dl (rng s)) = b :: bs ->
     tensor_to (device s) (fst b) = Ok x ->
     add_graph_check x = None ->
     add_graph s =
       Out (Ok ()) (set_rng (snd (dl_iter dl (rng s))) s)
         [EvTensorTo (device s) (fst b); EvAddGraph w x]) /\
  (forall s : State, exists g, post (add_graph s) = set_rng g s) /\
  (forall (n_epochs seed : Z) (s : State) (g0 : generator),
     manual_seed seed = Ok g0 ->
     train n_epochs seed (post (add_graph s)) = train n_epochs seed s).
Proof.
  split; [|split; [|split]].
  - intros s H. rewrite add_graph_run.
    destruct (train_loader s) as [dl|]; [|reflexivity].
    destruct (writer s) as [w|]; [|reflexivity].
    destruct H as [H|[H|(dl' & [= <-] & ->)]]; try discriminate. reflexivity.
  - intros s dl w b bs x Hdl Hw Hlen Hb Hx Hc.
    rewrite add_graph_run, Hdl, Hw.
    replace (0 <? dl_len dl)%nat with true
      by (symmetry; now apply Nat.ltb_lt).
    cbv zeta. now rewrite Hb, Hx, Hc.
  - exact add_graph_rng.
  - intros n seed s g0 Hseed. destruct (add_graph_rng s) as [g ->].
    exact (train_forgets_rng n seed s g g0 Hseed).
Qed.

(** ** The epoch count *)

Lemma train_epoch_counted epoch s :
  counted s ->
  let o := train_epoch epoch s in
  files (post o) = files s /\
  match res o with
  | Ok _ => counted (post o)
  | Raise _ =>
      counted (post o) \/
      total_epochs (post o) = Z.of_nat (length (losses (post o))) + 1
  end.
Proof.
  intros HC. cbv zeta. rewrite train_epoch_run. unfold counted in *.
  destruct (_mini_batch false _) as [[l|e] s1 t1] eqn:H1;
    apply mini_batch_ok_bookkeeping in H1;
    destruct H1 as [(L1 & _ & N1 & _ & _ & _ & F1 & _) _]; simpl in *.
  2: { split; [exact F1|]. right. rewrite L1, N1. lia. }
  destruct (_mini_batch true _) as [[v|e] s2 t2] eqn:H2;
    apply mini_batch_ok_bookkeeping in H2;
    destruct H2 as [(L2 & _ & N2 & _ & _ & _ & F2 & _) _]; simpl in *.
  - assert (total_epochs s2 = Z.of_nat (length (losses s2))) as HC2.
    { rewrite L2, N2, N1, length_app, L1. simpl. lia. }
    destruct (writer s2); [destruct (add_scalars_check _)|]; simpl;
      (split; [congruence|]); auto.
  - split; [congruence|]. left. simpl.
    rewrite L2, N2, N1, length_app, L1. simpl. lia.
Qed.

Lemma for_each_counted epochs : forall s,
  counted s ->
  let o := for_each epochs train_epoch s in
  files (post o) = files s /\
  match res o with
  | Ok _ => counted (post o)
  | Raise _ =>
      counted (post o) \/
      total_epochs (post o) = Z.of_nat (length (losses (post o))) + 1
  end.
Proof.
  induction epochs as [|epoch epochs IH]; intros s Hs; simpl.
  - now split.
  - unfold bind. destruct (train_epoch_counted epoch s Hs) as [H1 H2].
    destruct (train_epoch epoch s) as [[[]|e] s1 t1]; simpl in *; [|now split].
    specialize (IH s1 H2). simpl in IH.
    destruct (for_each epochs train_epoch s1) as [r s2 t2]. simpl in *.
    destruct IH as [IH1 IH2]. split; [congruence|exact IH2].
Qed.

Lemma op_counted (o : op) (s : State) :
  counts_agree s ->
  files_counted (post (run_op o s)) /\
  match res (run_op o s), o with
  | Raise _, OpTrain _ _ =>
      counted (post (run_op o s)) \/
      total_epochs (post (run_op o s)) =
        Z.of_nat (length (losses (post (run_op o s)))) + 1
  | _, _ => counted (post (run_op o s))
  end.
Proof.
  intros Hs.
  assert (forall m : M unit,
            holds counts_agree (fun _ => True) m ->
            files_counted (post (m s)) /\ counted (post (m s))) as Hholds.
  { intros m Hm. destruct (Hm s Hs) as [[H1 H2] _]. now split. }
  assert (forall (r : result ()) (P : Prop),
            P -> match r with Ok _ => P | Raise _ => P end) as Hany
    by (now intros []).
  destruct o; simpl run_op.
  1-4, 8-10:
    match goal with
    | |- _ /\ match res (?m ?s') with _ => _ end =>
        destruct (Hholds m) as [H1 H2];
        [| split; [exact H1 | now apply Hany] ]
    end.
  - unfold to, model_to, print. apply holds_try_except.
    all: hold; try exact I; try (intros; exact I).
    all: (let H := fresh in intros H; exact H).
  - unfold set_loaders. hold; try exact I.
    all: (let H := fresh in intros H; exact H).
  - unfold set_tensorboard, SummaryWriter.
    hold; try exact I; try (intros; exact I).
    all: (let H := fresh in intros H; exact H).
  - unfold set_seed.
    hold; try exact I; try (intros; exact I).
    all: (let H := fresh in intros H; exact H).
  - unfold predict, model_eval, model_train, tensor_to_device, model_call.
    hold; try exact I; try (intros; exact I).
    all: (let H := fresh in intros H; exact H).
  - unfold plot_losses. hold; try exact I; try (intros; exact I).
  - unfold add_graph, iterate, tensor_to_device, writer_add_graph.
    hold; try exact I; try (intros; exact I).
    all: (let H := fresh in intros H; exact H).
  - (* train *)
    rewrite train_run, set_seed_run. destruct Hs as [HC HF].
    destruct (manual_seed seed) as [g|e]; [|simpl; split; [exact HF | now left]].
    destruct (np_random_seed seed) as [e|];
      [simpl; split; [exact HF | now left]|].
    pose proof (for_each_counted (range n_epochs) (set_rng g s) HC) as Hloop.
    simpl in Hloop.
    destruct (for_each _ _ _) as [[[]|e] s1 t1]; simpl in *;
      destruct Hloop as [F Hloop];
      (split; [unfold files_counted; rewrite F; exact HF | exact Hloop]).
  - (* save_checkpoint *)
    rewrite save_checkpoint_run. destruct Hs as [HC HF].
    destruct (file_writable filename); simpl; [now split|].
    split; [|exact HC].
    intros f c. unfold files_counted in *. simpl.
    destruct (decide (filename = f)) as [->|Hne].
    + rewrite lookup_insert_eq. intros [= <-]. exact HC.
    + rewrite lookup_insert_ne by exact Hne. apply HF.
  - (* load_checkpoint *)
    rewrite load_checkpoint_run. destruct Hs as [HC HF].
    destruct (files s !! filename) as [c|] eqn:Hc; simpl; [|now split].
    destruct (module_accepts _ _); simpl; [|now split].
    destruct (optimizer_accepts _ _); simpl; [|now split].
    split; [exact HF|]. unfold counted. simpl. now apply (HF filename).
Qed.

(** X10.  [total_epochs] counts the recorded training losses.  It is [0]
    after [__init__], and [total_epochs == len(losses)] is kept, on the
    instance and in the checkpoints on disk, by every public operation that
    returns, provided it held in the checkpoints on disk to begin with.
    When an operation raises it still holds, except that a [train] cut
    short inside a training pass has already counted the epoch:
    [total_epochs] is then one more than [len(losses)]. *)
Theorem epochs_counted :
  (forall s : State,
     res (__init__ s) = Ok () -> counted (post (__init__ s))) /\
  (forall (o : op) (s : State),
     counted s -> files_counted s ->
     res (run_op o s) = Ok () ->
     counted (post (run_op o s)) /\ files_counted (post (run_op o s))) /\
  (forall (o : op) (s : State) (e : exn),
     counted s -> files_counted s ->
     res (run_op o s) = Raise e ->
     files_counted (post (run_op o s)) /\
     (counted (post (run_op o s)) \/
      (exists n_epochs seed, o = OpTrain n_epochs seed) /\
      total_epochs (post (run_op o s)) =
        Z.of_nat (length (losses (post (run_op o s)))) + 1)).
Proof.
  split; [|split].
  - intros s. unfold __init__, model_to, counted. run.
    destruct (module_to default_device); run; [discriminate|reflexivity].
  - intros o s HC HF Hok.
    destruct (op_counted o s (conj HC HF)) as [H1 H2].
    rewrite Hok in H2. now split.
  - intros o s e HC HF Hraise.
    destruct (op_counted o s (conj HC HF)) as [H1 H2].
    rewrite Hraise in H2. split; [exact H1|].
    destruct o; try (now left).
    destruct H2 as [H2|H2]; [now left|right]. split; [|exact H2]. eauto.
Qed.

(** ** Checkpoints, further *)

(** X11.  [load_checkpoint] is not all-or-nothing.  A missing file leaves
    the instance exactly as it was.  A state dict the model rejects raises
    [RuntimeError] after the model has copied the entries that fit.  And the
    model loads before the optimizer is asked: when the optimizer rejects
    its state dict, the model already holds the parameters of the
    checkpoint.  In both cases the optimizer state, the histories, the epoch
    count and the mode of the model are still the old ones. *)
Theorem load_checkpoint_failure (filename : string) (s : State) (e : exn) :
  res (load_checkpoint filename s) = Raise e ->
  let o := load_checkpoint filename s in
  losses (post o) = losses s /\ val_losses (post o) = val_losses s /\
  total_epochs (post o) = total_epochs s /\
  optimizer_state (post o) = optimizer_state s /\
  model_training (post o) = model_training s /\
  match files s !! filename with
  | None => e = Exception "FileNotFoundError" /\ post o = s
  | Some c =>
      if module_accepts (model_params s) (ck_model_state_dict c)
      then e = Exception "ValueError" /\
           model_params (post o) = ck_model_state_dict c
      else e = RuntimeError /\
           model_params (post o) =
             module_partial_load (model_params s) (ck_model_state_dict c)
  end.
Proof.
  cbv zeta. rewrite load_checkpoint_run.
  destruct (files s !! filename) as [c|]; [|intros [= <-]; now repeat split].
  destruct (module_accepts _ _); [|intros [= <-]; now repeat split].
  destruct (optimizer_accepts _ _); [discriminate|].
  intros [= <-]. now repeat split.
Qed.

(** X12.  Loading and saving again gives the same checkpoint: after
    [load_checkpoint(f)] has returned, [save_checkpoint(g)] writes to [g]
    exactly the checkpoint that was read from [f]. *)
Theorem checkpoint_resave (f g : string) (s : State) (c : checkpoint) :
  files s !! f = Some c ->
  res (load_checkpoint f s) = Ok () ->
  file_writable g = None ->
  let o := save_checkpoint g (post (load_checkpoint f s)) in
  res o = Ok () /\ files (post o) !! g = Some c.
Proof.
  intros Hc Hload Hw. cbv zeta.
  rewrite save_checkpoint_run, Hw. rewrite load_checkpoint_run, Hc in *.
  destruct (module_accepts _ _); [|discriminate].
  destruct (optimizer_accepts _ _); [|discriminate].
  simpl. split; [reflexivity|]. rewrite lookup_insert_eq.
  now destruct c.
Qed.

(** X13.  [save_checkpoint] changes nothing but the named file: every
    attribute of the instance, the model, the optimizer and every other file
    stay as they are, and when [torch.save] raises the named file stays as
    it was too.  What it writes is the state of the moment: epoch count,
    both state dicts and both histories. *)
Theorem save_checkpoint_frame (filename : string) (s : State) :
  let o := save_checkpoint filename s in
  post o = set_files (files (post o)) s /\
  (forall g, g <> filename -> files (post o) !! g = files s !! g) /\
  match res o with
  | Ok _ => files (post o) !! filename = Some (checkpoint_of s)
  | Raise _ => files (post o) = files s
  end.
Proof.
  cbv zeta. rewrite save_checkpoint_run.
  destruct (file_writable filename); simpl.
  - split; [now destruct s|]. now split.
  - split; [reflexivity|]. split; [|apply lookup_insert_eq].
    intros g Hg. now apply lookup_insert_ne.
Qed.

(** ** Devices *)

Lemma to_agrees (d : string) (s : State) :
  res (to d s) = Ok () -> device_agrees (post (to d s)).
Proof.
  unfold to, try_except_RuntimeError, model_to, print, device_agrees. run.
  destruct (module_to d) as [[|name]|]; run; try discriminate; [|reflexivity].
  destruct (module_to default_device); run; [discriminate|reflexivity].
Qed.

(** X14.  [self.device] is where the model is: this holds after an
    [__init__] that returns and after every [to] that returns (directly or
    through the fallback), and every other public operation leaves both
    devices alone, whether it returns or raises. *)
Theorem device_follows_model :
  (forall s : State,
     res (__init__ s) = Ok () -> device_agrees (post (__init__ s))) /\
  (forall (d : string) (s : State),
     res (to d s) = Ok () -> device_agrees (post (to d s))) /\
  (forall (o : op) (s : State),
     match o with
     | OpTo _ => True
     | _ =>
         device (post (run_op o s)) = device s /\
         model_device (post (run_op o s)) = model_device s
     end).
Proof.
  split; [|split].
  - intros s. unfold __init__, model_to, device_agrees. run.
    destruct (module_to default_device); run; [discriminate|reflexivity].
  - exact to_agrees.
  - intros o s.
    assert (forall m : M unit,
              holds (fun s' => device s' = device s /\
                               model_device s' = model_device s)
                (fun _ => True) m ->
              device (post (m s)) = device s /\
              model_device (post (m s)) = model_device s) as Hholds.
    { intros m Hm. now destruct (Hm s (conj eq_refl eq_refl)) as [H _]. }
    destruct o; simpl run_op; try exact I.
    + apply Hholds. unfold set_loaders. hold; try exact I.
      all: (let H := fresh in intros H; exact H).
    + apply Hholds. unfold set_tensorboard, SummaryWriter.
      hold; try exact I; try (intros; exact I).
      all: (let H := fresh in intros H; exact H).
    + apply Hholds. unfold set_seed.
      hold; try exact I; try (intros; exact I).
      all: (let H := fresh in intros H; exact H).
    + destruct (train_setup s n_epochs seed s)
        as [(_ & _ & _ & H4 & H5 & _) _]; [now repeat split|]. now split.
    + apply Hholds.
      unfold save_checkpoint, state_dict, optimizer_state_dict, torch_save.
      hold; try exact I; try (intros; exact I).
      all: (let H := fresh in intros H; exact H).
    + apply Hholds.
      unfold load_checkpoint, torch_load, load_state_dict,
        optimizer_load_state_dict, model_train.
      hold; try exact I; try (intros; exact I).
      all: (let H := fresh in intros H; exact H).
    + apply Hholds.
      unfold predict, model_eval, model_train, tensor_to_device, model_call.
      hold; try exact I; try (intros; exact I).
      all: (let H := fresh in intros H; exact H).
    + apply Hholds. unfold plot_losses. hold; try exact I; try (intros; exact I).
    + apply Hholds.
      unfold add_graph, iterate, tensor_to_device, writer_add_graph.
      hold; try exact I; try (intros; exact I).
      all: (let H := fresh in intros H; exact H).
Qed.

(** X15.  After a [to] that returns, training sends every batch to the
    device the model is on. *)
Theorem batches_follow_model (d : string) (n_epochs seed : Z) (s : State) :
  res (to d s) = Ok () ->
  let s' := post (to d s) in
  Forall (sent_to (model_device s')) (evs (train n_epochs seed s')).
Proof.
  intros Hok. cbv zeta. rewrite <- (to_agrees d s Hok).
  now destruct (train_sent_to (device (post (to d s))) n_epochs seed
                  (post (to d s)) eq_refl).
Qed.

Lemma train_epoch_never_closes epoch :
  holds (fun _ => True) (fun ev => is_writer_close ev = false)
    (train_epoch epoch).
Proof.
  unfold train_epoch, _mini_batch, iterate, tensor_to_device,
    perform_train_step_fn, perform_val_step_fn, model_train, model_eval,
    model_call, loss_fn, backward, optimizer_step, optimizer_zero_grad, item,
    add_scalars.
  repeat first
    [ apply holds_with_no_grad; [intros; exact I | reflexivity | reflexivity |]
    | hold_step ];
    try exact I; try reflexivity; try (intros; reflexivity).
Qed.

(** X16.  A [train] that raises does not close the writer: [close] comes
    after the epoch loop and nothing guards it, so the writer is closed
    exactly when [train] returns and a writer is set. *)
Theorem writer_closed_on_return_only (n_epochs seed : Z) (s : State) :
  let o := train n_epochs seed s in
  List.filter is_writer_close (evs o) =
    match res o, writer (post o) with
    | Ok _, Some w => [EvWriterClose w]
    | _, _ => []
    end.
Proof.
  cbv zeta. rewrite train_run, set_seed_run.
  assert (forall s0, List.filter is_writer_close
            (evs (for_each (range n_epochs) train_epoch s0)) = []) as Hloop.
  { intros s0.
    destruct (holds_for_each (fun _ => True)
                (fun ev => is_writer_close ev = false) (range n_epochs)
                train_epoch train_epoch_never_closes s0 I) as [_ H].
    induction H as [|ev t Hev _ IH]; [reflexivity|]. simpl. now rewrite Hev. }
  destruct (manual_seed seed) as [g|e]; [|reflexivity].
  destruct (np_random_seed seed) as [e|]; [reflexivity|].
  specialize (Hloop (set_rng g s)).
  destruct (for_each _ _ _) as [[[]|e] s1 t1]; simpl in *.
  - rewrite List.filter_app, Hloop. now destruct (writer s1).
  - exact Hloop.
Qed.

End Properties.

(** * The theorems at work on the least-squares instance *)

Section Examples.
Import LinReg.
#[local] Open Scope Q_scope.

Example fitted_three_epochs :
  let o := train 3 42 fitted in
  res o = Ok () /\
  losses (post o) = [Some (Num 1); Some (Num (1 # 4)); Some (Num (1 # 16))] /\
  val_losses (post o) =
    [Some (Num (9 # 4)); Some (Num (25 # 16)); Some (Num (81 # 64))] /\
  total_epochs (post o) = 3%Z /\
  model_params (post o) = 7 # 8.
Proof. vm_compute. repeat split. Qed.

Example to_falls_back :
  let o := to "cuda:7" fitted in
  res o = Ok () /\ device (post o) = "cpu" /\
  evs o = [EvModuleTo "cuda:7"; EvRaise RuntimeError;
           EvPrint "Couldn't send it to cuda:7, sending it to cpu instead.";
           EvModuleTo "cpu"].
Proof. vm_compute. repeat split. Qed.

Example to_lets_other_exceptions_through :
  let o := to "cuda" fitted in
  res o = Raise (Exception "AssertionError") /\ device (post o) = "cuda".
Proof. vm_compute. repeat split. Qed.

Lemma checkpoint_round_trip_witness :
  let s := post (train 2 42 fitted) in
  let s2 := post (train 3 7 (post (save_checkpoint "runs/ckpt.pth" s))) in
  let o := load_checkpoint "runs/ckpt.pth" s2 in
  res o = Ok () /\
  total_epochs (post o) = total_epochs s /\
  losses (post o) = losses s /\
  val_losses (post o) = val_losses s /\
  res (state_dict (post o)) = Ok (model_params s) /\
  res (optimizer_state_dict (post o)) = Ok (optimizer_state s).
Proof.
  intros s s2.
  apply (checkpoint_round_trip "runs/ckpt.pth" s s2); vm_compute; reflexivity.
Defined.

Lemma train_runs_epochs_witness :
  let o := train 3 42 fitted in
  exists s0 t0 ls vs t,
    set_seed 42 fitted = Out (Ok ()) s0 t0 /\
    runs_epochs (range 3) s0 ls vs t (post o) /\
    evs o = t0 ++ t ++
      match writer (post o) with Some w => [EvWriterClose w] | None => [] end /\
    Z.of_nat (length (range 3)) = 3%Z /\
    Z.of_nat (length ls) = 3%Z /\
    Z.of_nat (length vs) = 3%Z /\
    losses (post o) = losses fitted ++ ls /\
    val_losses (post o) = val_losses fitted ++ vs /\
    total_epochs (post o) = (total_epochs fitted + 3)%Z.
Proof.
  apply (train_runs_epochs 3 42 fitted); [lia | vm_compute; reflexivity].
Defined.

Lemma mini_batch_mean_witness :
  let s := trainer 0 (1 # 4) (loader [(1, 1); (2, 1)]) None in
  let ls := pass_losses perform_train_step_fn
              (fst (dl_iter (loader [(1, 1); (2, 1)]) (rng s)))
              (set_rng (snd (dl_iter (loader [(1, 1); (2, 1)]) (rng s))) s) in
  length ls = 2%nat /\ Some (Num (1 # 2)) = Some (np_mean ls) /\
  (false = false ->
   forall (epoch : Z) (s0 : State),
     s = set_total_epochs (total_epochs s0 + 1) s0 ->
     res (train_epoch epoch s0) = Ok () ->
     losses (post (train_epoch epoch s0)) = losses s0 ++ [Some (Num (1 # 2))]).
Proof.
  apply (mini_batch_mean false
           (trainer 0 (1 # 4) (loader [(1, 1); (2, 1)]) None)
           (loader [(1, 1); (2, 1)]) (Some (Num (1 # 2))));
    vm_compute; reflexivity.
Defined.

Lemma tensorboard_logging_witness :
  let o := train 2 42 logged in
  exists ls vs,
    length ls = 2%nat /\ length vs = 2%nat /\
    losses (post o) = losses logged ++ ls /\
    val_losses (post o) = val_losses logged ++ vs /\
    writer_calls (evs o) =
      epochs_log (Some "runs/linreg_None") (range 2) ls vs
        ++ [EvWriterClose "runs/linreg_None"].
Proof.
  apply (proj1 (proj2 (proj2 (proj2 tensorboard_logging))) 2%Z 42%Z logged);
    vm_compute; reflexivity.
Defined.

Lemma missing_loader_witness :
  let s := post (__init__ (fresh 0 (1 # 4))) in
  let o := train 2 42 s in
  res o = Ok () /\
  losses (post o) = losses s ++ replicate 2 None /\
  val_losses (post o) = val_losses s ++ replicate 2 None.
Proof.
  pose (s := post (__init__ (fresh 0 (1 # 4)))).
  assert (res (train 2 42 s) = Ok ()) as Hok.
  { apply (proj2 (proj2 (proj2 missing_loader)) 2%Z 42%Z s);
      [reflexivity | reflexivity | left; reflexivity | vm_compute; reflexivity]. }
  split; [exact Hok|]. split.
  - exact (proj1 (proj2 (proj2 missing_loader)) 2%Z 42%Z s eq_refl Hok).
  - exact (proj1 (proj1 (proj2 missing_loader) 2%Z 42%Z s eq_refl Hok)).
Defined.

Lemma loss_histories_lockstep_witness :
  lockstep (post (run_op (OpTrain 3 42) fitted)) /\
  files_lockstep (post (run_op (OpTrain 3 42) fitted)).
Proof.
  apply (proj1 (proj2 loss_histories_lockstep) (OpTrain 3 42) fitted).
  - reflexivity.
  - intros f c. vm_compute. discriminate.
  - vm_compute. reflexivity.
Defined.

(** With a learning rate of [2] the same fit diverges: the second recorded
    loss is nine times the first. *)
Lemma recorded_loss_grows :
  let o := train 2 42 (trainer 0 2 (loader [(1, 1)]) None) in
  res o = Ok () /\
  losses (post o) = [Some (Num 1); Some (Num 9)] /\
  never_increases (losses (post o)) = false.
Proof. vm_compute. repeat split. Qed.

(** With a writer set and no training loader, the first epoch hands
    [{'training': None}] to [add_scalars], which raises. *)
Lemma train_without_train_loader_fails :
  let o := train 1 42 (logger 0 (1 # 4)) in
  train_loader (logger 0 (1 # 4)) = None /\
  res o = Raise RuntimeError /\
  losses (post o) = [None].
Proof. vm_compute. repeat split. Qed.

(** A validation batch of the wrong width makes the forward pass of the
    validation step raise, after the training loss was appended. *)
Lemma interrupted_train_breaks_lockstep :
  let s := trainer 0 (1 # 4) (loader [(1, 1)]) (Some (loader_of 2 [(1, 2)])) in
  let o := run_op (OpTrain 1 42) s in
  lockstep s /\ files_lockstep s /\
  res o = Raise RuntimeError /\
  losses (post o) = [Some (Num 1)] /\ val_losses (post o) = [] /\
  ~ lockstep (post o).
Proof.
  cbv zeta. split; [reflexivity|]. split; [intros f c; vm_compute; discriminate|].
  split; [vm_compute; reflexivity|]. split; [vm_compute; reflexivity|].
  split; [vm_compute; reflexivity|]. vm_compute. discriminate.
Qed.

Lemma recorded_losses_are_pass_means_witness :
  let o := train 3 42 fitted in
  losses (post o) =
    losses fitted ++
    map (pass_mean (loader [(1, 1)]))
      (pass_starts (range 3) (post (set_seed 42 fitted))).
Proof.
  apply (recorded_losses_are_pass_means 3 42 fitted (loader [(1, 1)]));
    vm_compute; reflexivity.
Defined.

Lemma train_no_epochs_witness :
  let o := train (-3) 42 logged in
  losses (post o) = losses logged /\ val_losses (post o) = val_losses logged /\
  total_epochs (post o) = total_epochs logged /\
  same_parameters logged (post o) /\
  res o = res (set_seed 42 logged) /\
  writer_calls (evs o) =
    match res o, writer logged with
    | Ok _, Some w => [EvWriterClose w]
    | _, _ => []
    end.
Proof. apply (train_no_epochs (-3) 42 logged). lia. Defined.

Lemma empty_loader_witness :
  _mini_batch false idle =
    Out (Ok (Some (np_mean [])))
      (set_rng (snd (dl_iter (loader []) (rng idle))) idle) [].
Proof. apply (empty_loader false idle (loader [])); reflexivity. Defined.

Example empty_loader_gives_nan :
  res (_mini_batch false idle) = Ok (Some NaN).
Proof. vm_compute. reflexivity. Qed.

Lemma one_step_per_batch_witness :
  let t := evs (_mini_batch false two_batches) in
  let n := length (fst (dl_iter (loader [(1, 1); (2, 1)]) (rng two_batches))) in
  length (List.filter is_forward t) = n /\
  length (List.filter is_backward t) = n /\
  length (List.filter is_optimizer_step t) = n.
Proof.
  apply (one_step_per_batch two_batches (loader [(1, 1); (2, 1)])
           (Some (Num (1 # 2)))); vm_compute; reflexivity.
Defined.

Lemma gradients_cleared_witness :
  model_grads (post (train 3 42 fitted)) = None.
Proof.
  apply (proj2 gradients_cleared 3%Z 42%Z fitted); vm_compute; reflexivity.
Defined.

Lemma add_graph_harmless_witness :
  add_graph logged =
    Out (Ok ())
      (set_rng (snd (dl_iter (loader [(1, 1)]) (rng logged))) logged)
      [EvTensorTo (device logged) (Dual 1 1 None);
       EvAddGraph "runs/linreg_None" (Dual 1 1 None)].
Proof.
  apply (proj1 (proj2 add_graph_harmless) logged (loader [(1, 1)])
           "runs/linreg_None" (Dual 1 1 None, Dual 1 1 None) [] (Dual 1 1 None));
    vm_compute; reflexivity.
Defined.

Lemma epochs_counted_witness :
  counted (post (run_op (OpTrain 3 42) fitted)) /\
  files_counted (post (run_op (OpTrain 3 42) fitted)).
Proof.
  apply (proj1 (proj2 epochs_counted) (OpTrain 3 42) fitted).
  - reflexivity.
  - intros f c. vm_compute. discriminate.
  - vm_compute. reflexivity.
Defined.

Lemma load_checkpoint_failure_witness :
  let o := load_checkpoint "runs/joint.pth" shared_disk in
  losses (post o) = losses shared_disk /\
  val_losses (post o) = val_losses shared_disk /\
  total_epochs (post o) = total_epochs shared_disk /\
  optimizer_state (post o) = optimizer_state shared_disk /\
  model_training (post o) = model_training shared_disk /\
  match files shared_disk !! "runs/joint.pth" with
  | None => Exception "ValueError" = Exception "FileNotFoundError" /\
            post o = shared_disk
  | Some c =>
      if module_accepts (model_params shared_disk) (ck_model_state_dict c)
      then Exception "ValueError" = Exception "ValueError" /\
           model_params (post o) = ck_model_state_dict c
      else Exception "ValueError" = RuntimeError /\
           model_params (post o) =
             module_partial_load (model_params shared_disk)
               (ck_model_state_dict c)
  end.
Proof.
  apply (load_checkpoint_failure "runs/joint.pth" shared_disk
           (Exception "ValueError")).
  vm_compute. reflexivity.
Defined.

(** The checkpoint of the other instance fits the model but not the
    optimizer: the load fails, and the weight is the foreign one. *)
Example half_loaded_checkpoint :
  let o := load_checkpoint "runs/joint.pth" shared_disk in
  res o = Raise (Exception "ValueError") /\
  model_params shared_disk = 0 /\ model_params (post o) = 1 # 2 /\
  total_epochs (post o) = 0%Z /\ losses (post o) = [].
Proof. vm_compute. repeat split. Qed.

Lemma checkpoint_resave_witness :
  let s := post (save_checkpoint "runs/a.pth" (post (train 2 42 fitted))) in
  let o := save_checkpoint "runs/b.pth" (post (load_checkpoint "runs/a.pth" s)) in
  res o = Ok () /\
  files (post o) !! "runs/b.pth" = Some (checkpoint_of (post (train 2 42 fitted))).
Proof.
  intros s.
  apply (checkpoint_resave "runs/a.pth" "runs/b.pth" s
           (checkpoint_of (post (train 2 42 fitted))));
    vm_compute; reflexivity.
Defined.

Lemma device_follows_model_witness :
  device_agrees (post (to "cuda:7" fitted)).
Proof.
  apply (proj1 (proj2 device_follows_model) "cuda:7" fitted).
  vm_compute. reflexivity.
Defined.

Lemma batches_follow_model_witness :
  let s' := post (to "cuda:7" fitted) in
  Forall (sent_to (model_device s')) (evs (train 2 42 s')).
Proof.
  apply (batches_follow_model "cuda:7" 2 42 fitted). vm_compute. reflexivity.
Defined.

Example failed_train_leaves_writer_open :
  let s := post (set_loaders (loader [(1, 1)]) (Some (loader_of 2 [(1, 2)]))
                   (logger 0 (1 # 4))) in
  res (train 2 42 s) = Raise RuntimeError /\
  List.filter is_writer_close (evs (train 2 42 s)) = [].
Proof. vm_compute. split; reflexivity. Qed.

End Examples.
